(** * moneymoney_update_category.py: export, classify, write back

    A shallow embedding of the script [moneymoney_update_category.py] and the
    properties of its three stages.  The script talks to two outside parties:
    the finance application, through [osascript], and an AI backend, through
    a client library.  Both are oracles of an environment [Env]; every
    theorem holds for all of them.  What the script prints is kept as a list
    of structured lines, what it asks of the outside as a list of events. *)

From Stdlib Require Import ZArith List String Bool Lia.
From Stdlib Require Import Floats.SpecFloat.
From Stdlib Require Strings.Byte.
Import ListNotations.

Set Warnings "-register-all".

Open Scope string_scope.
Open Scope list_scope.
Open Scope Z_scope.

(** ** Python values

    The objects [plistlib.loads] and [json.loads] hand to the script:
    [None], booleans, integers, floats (their IEEE-754 datum), strings,
    bytes, datetimes (an opaque instant), lists, and dictionaries with string
    keys, in insertion order. *)

Inductive pyval : Type :=
| PNone
| PBool (b : bool)
| PInt (z : Z)
| PFloat (f : spec_float)
| PStr (s : string)
| PBytes (b : list Byte.byte)
| PDate (t : Z)
| PList (l : list pyval)
| PDict (d : list (string * pyval)).

(** The exceptions below [Exception] that the script can meet. *)
Inductive exn : Type :=
| KeyError (k : string)
| TypeError
| AttributeError
| ValueError
| OverflowError
| OtherError (msg : string).

Inductive outcome (A : Type) : Type :=
| Ret (a : A)
| Raise (e : exn).
Arguments Ret {A} a.
Arguments Raise {A} e.

(** [bool(v)]. *)
Definition truthy (v : pyval) : bool :=
  match v with
  | PNone => false
  | PBool b => b
  | PInt z => negb (z =? 0)
  | PFloat f => match f with S754_zero _ => false | _ => true end
  | PStr s => match s with EmptyString => false | _ => true end
  | PBytes b => match b with [] => false | _ => true end
  | PDate _ => true
  | PList l => match l with [] => false | _ => true end
  | PDict d => match d with [] => false | _ => true end
  end.

(** Lookup in a dictionary with string keys. *)
Fixpoint assoc (k : string) (d : list (string * pyval)) : option pyval :=
  match d with
  | [] => None
  | (k', v) :: d' => if String.eqb k' k then Some v else assoc k d'
  end.

(** [v.get(k, default)]: only a dictionary has the method. *)
Definition py_get (v : pyval) (k : string) (default : pyval) : outcome pyval :=
  match v with
  | PDict d => Ret (match assoc k d with Some x => x | None => default end)
  | _ => Raise AttributeError
  end.

(** [v[k]] with a string [k]: a dictionary looks the key up, a sequence
    refuses a string index, nothing else can be subscripted. *)
Definition py_item (v : pyval) (k : string) : outcome pyval :=
  match v with
  | PDict d => match assoc k d with Some x => Ret x | None => Raise (KeyError k) end
  | _ => Raise TypeError
  end.

(** [len(v)]. *)
Definition py_len (v : pyval) : outcome Z :=
  match v with
  | PStr s => Ret (Z.of_nat (String.length s))
  | PBytes b => Ret (Z.of_nat (List.length b))
  | PList l => Ret (Z.of_nat (List.length l))
  | PDict d => Ret (Z.of_nat (List.length d))
  | _ => Raise TypeError
  end.

Fixpoint chars (s : string) : list pyval :=
  match s with
  | EmptyString => []
  | String c s' => PStr (String c EmptyString) :: chars s'
  end.

(** [iter(v)], run to the end: what a [for] loop over [v] visits. *)
Definition py_iter (v : pyval) : outcome (list pyval) :=
  match v with
  | PList l => Ret l
  | PDict d => Ret (map (fun kv => PStr (fst kv)) d)
  | PStr s => Ret (chars s)
  | PBytes b => Ret (map (fun x => PInt (Z.of_N (Byte.to_N x))) b)
  | _ => Raise TypeError
  end.

(** ** Keys of a Python dictionary

    A key must be hashable, and two keys are one when they are the same
    object or compare equal: [True == 1 == 1.0].  A number is compared by
    its exact value, here its odd mantissa and binary exponent.  The keys of
    the script come from [json.loads], which returns one and the same object
    for every NaN, so that a NaN is the key a NaN was stored under, and
    equal to nothing else. *)

Definition hashable (v : pyval) : bool :=
  match v with
  | PList _ | PDict _ => false
  | _ => true
  end.

Inductive num : Type :=
| NumZero
| NumFin (neg : bool) (m : positive) (e : Z)
| NumInf (neg : bool)
| NumNaN.

Fixpoint strip (m : positive) (e : Z) : positive * Z :=
  match m with
  | xO m' => strip m' (e + 1)
  | _ => (m, e)
  end.

Definition num_fin (neg : bool) (m : positive) (e : Z) : num :=
  let (m', e') := strip m e in NumFin neg m' e'.

Definition num_of_Z (z : Z) : num :=
  match z with
  | Z0 => NumZero
  | Zpos p => num_fin false p 0
  | Zneg p => num_fin true p 0
  end.

Definition num_of_float (f : spec_float) : option num :=
  match f with
  | S754_zero _ => Some NumZero
  | S754_infinity s => Some (NumInf s)
  | S754_nan => Some NumNaN
  | S754_finite s m e => Some (num_fin s m e)
  end.

Inductive key : Type :=
| KNone
| KNum (n : num)
| KStr (s : string)
| KBytes (b : list Byte.byte)
| KDate (t : Z).

Definition key_of (v : pyval) : option key :=
  match v with
  | PNone => Some KNone
  | PBool b => Some (KNum (num_of_Z (if b then 1 else 0)))
  | PInt z => Some (KNum (num_of_Z z))
  | PFloat f => option_map KNum (num_of_float f)
  | PStr s => Some (KStr s)
  | PBytes b => Some (KBytes b)
  | PDate t => Some (KDate t)
  | PList _ | PDict _ => None
  end.

Definition num_eqb (a b : num) : bool :=
  match a, b with
  | NumZero, NumZero => true
  | NumFin s m e, NumFin s' m' e' => Bool.eqb s s' && Pos.eqb m m' && Z.eqb e e'
  | NumInf s, NumInf s' => Bool.eqb s s'
  | NumNaN, NumNaN => true
  | _, _ => false
  end.

Fixpoint bytes_eqb (a b : list Byte.byte) : bool :=
  match a, b with
  | [], [] => true
  | x :: a', y :: b' => Byte.eqb x y && bytes_eqb a' b'
  | _, _ => false
  end.

Definition key_eqb (a b : key) : bool :=
  match a, b with
  | KNone, KNone => true
  | KNum x, KNum y => num_eqb x y
  | KStr x, KStr y => String.eqb x y
  | KBytes x, KBytes y => bytes_eqb x y
  | KDate x, KDate y => Z.eqb x y
  | _, _ => false
  end.

(** [a] and [b] are one key of a dictionary. *)
Definition py_eq (a b : pyval) : bool :=
  match key_of a, key_of b with
  | Some x, Some y => key_eqb x y
  | _, _ => false
  end.

(** A dictionary built by the script: entries in insertion order. *)
Definition pydict := list (pyval * pyval).

(** [d[k] = v]: an equal key keeps its place and its first spelling and
    takes the new value, a new key goes to the end. *)
Fixpoint dict_set (d : pydict) (k v : pyval) : pydict :=
  match d with
  | [] => [(k, v)]
  | (k', v') :: d' =>
      if py_eq k' k then (k', v) :: d' else (k', v') :: dict_set d' k v
  end.

Fixpoint dict_get (d : pydict) (k : pyval) : option pyval :=
  match d with
  | [] => None
  | (k', v') :: d' => if py_eq k' k then Some v' else dict_get d' k
  end.

(** [json.dumps] accepts the value: no bytes and no datetime inside. *)
Fixpoint json_serializable (v : pyval) : bool :=
  match v with
  | PBytes _ | PDate _ => false
  | PList l => forallb json_serializable l
  | PDict d => forallb (fun kv => json_serializable (snd kv)) d
  | _ => true
  end.

(** ** Text with interpolated values

    An f-string is kept as its pieces: literal text, [str(v)] of a value,
    and a date under [strftime('%Y-%m-%d')]. *)

Inductive piece : Type :=
| Lit (s : string)
| Str (v : pyval)
| Ymd (d : Z).

Definition fstring := list piece.

Definition Q : piece := Lit (String (Ascii.ascii_of_nat 34) EmptyString).

(** The text holds a NUL character. *)
Fixpoint has_nul (s : string) : bool :=
  match s with
  | EmptyString => false
  | String c s' => Ascii.eqb c Ascii.zero || has_nul s'
  end.

(** The text of the f-string holds a NUL character: in a literal piece or
    in a string put in as it is; [str] of any other value writes none. *)
Definition embedded_nul (text : fstring) : bool :=
  existsb
    (fun p =>
       match p with
       | Lit s => has_nul s
       | Str (PStr s) => has_nul s
       | _ => false
       end)
    text.

(** ** Dates

    A [datetime.date] is its proleptic Gregorian ordinal, from 1 for
    0001-01-01 to [_MAXORDINAL] for 9999-12-31.  [d - timedelta(days=n)]
    raises [OverflowError] when the days do not fit a [timedelta] or the
    result leaves that range. *)

Definition _MAXORDINAL : Z := 3652059.

Definition valid_date (d : Z) : Prop := 0 < d <= _MAXORDINAL.

Definition date_sub_days (d n : Z) : outcome Z :=
  if 999999999 <? Z.abs n then Raise OverflowError
  else
    let o := d - n in
    if (0 <? o) && (o <=? _MAXORDINAL) then Ret o else Raise OverflowError.

(** [format(v, '.2f')]: numbers are printed, a datetime takes the format
    for a [strftime] pattern, an integer too large for a float and every
    other value raise. *)
Definition format_2f (v : pyval) : outcome unit :=
  match v with
  | PBool _ | PFloat _ | PDate _ => Ret tt
  | PInt z =>
      if Z.abs z <? 2 ^ 1024 - 2 ^ 970 then Ret tt else Raise OverflowError
  | PStr _ => Raise ValueError
  | _ => Raise TypeError
  end.

(** [v.strftime('%Y-%m-%d')]: only a datetime has the method. *)
Definition py_strftime (v : pyval) : outcome Z :=
  match v with
  | PDate t => Ret t
  | _ => Raise AttributeError
  end.

(** ** Configuration: the constants at the head of the script *)

Record config : Type := {
  AI_PROVIDER : string;
  UNCATGEGORIZED_CATEGORY_UUID : string;
  DAYS_TO_EXPORT : Z;
  AVAILABLE_CATEGORIES : list string
}.

Definition source_config : config := {|
  AI_PROVIDER := "deepseek";
  UNCATGEGORIZED_CATEGORY_UUID := "a2fea395-d50a-41f9-913a-4a73dec89e72";
  DAYS_TO_EXPORT := 20;
  AVAILABLE_CATEGORIES :=
    ["Uncategorized"; "Auto"; "Family"; "Health & Personal Care";
     "Household & Home"; "Leisure & Entertainment"; "Miscellaneous"; "Pets";
     "Shopping"; "Tax"; "Travel & Transportation"; "AVC"; "Pension";
     "Real Estate"; "Rental Income"; "Savings"; "Online Services"; "Deposit";
     "Insurance"; "Business Expenses"; "Utilities"; "Investments"]
|}.

(** ** The outside world *)

(** A finished [osascript] process: its exit status, the bytes it wrote to
    its standard output, and the text it wrote to its standard error.  The
    export call, whose script is made of the constants of the configuration
    and of a date, is taken to start and to finish.  An update call, whose
    script is made of what the backend answered, can also raise: see
    [subprocess_run]. *)
Record proc : Type := {
  returncode : Z;
  stdout : list Byte.byte;
  stderr : string
}.

Inductive client : Type :=
| OpenAI (api_key : option string) (base_url : option string)
| Anthropic.

Inductive api : Type :=
| chat_completions_create
| messages_create.

(** One request to the AI backend: the model, the system prompt, and the
    user message, the list of [{"id": ..., "detail": ...}] items that
    [json.dumps] writes out. *)
Record request : Type := {
  rq_model : string;
  rq_json_object : bool;
  rq_max_tokens : option Z;
  rq_system : fstring;
  rq_items : list (pyval * fstring)
}.

(** What the script asks of the outside, in order: the export call
    ([subprocess.Popen]), the backend call, the update calls
    ([subprocess.run]).  An event stands for the call, made whether it then
    returns or raises. *)
Inductive event : Type :=
| Popen (script : fstring)
| AICall (c : client) (a : api) (r : request)
| Run (script : fstring).

(** The environment of one run.  [today] is the ordinal of
    [datetime.date.today()], [now] the instant of [datetime.datetime.now()].
    [osascript] runs an AppleScript and [ai_backend] answers a request; each
    may depend on, and change, the state of the world.  The backend answers
    with the text of the first choice ([None] when it has no content) or
    raises an exception below [Exception].  [plistlib_loads] and
    [json_loads] are the two parsers.  [run_error] is what [subprocess.run]
    raises for an update script in a world, and the world it leaves, when it
    raises something that is neither [CalledProcessError] nor the
    [ValueError] of a NUL character in the script: [UnicodeEncodeError] for a
    lone surrogate, [UnicodeDecodeError] for output that is no text, an
    [OSError] of the system; [None] when it raises nothing of the kind. *)
Record Env : Type := {
  world : Type;
  today : Z;
  now : Z;
  getenv : string -> option string;
  osascript : fstring -> world -> proc * world;
  plistlib_loads : list Byte.byte -> outcome pyval;
  ai_backend : client -> api -> request -> world -> outcome (option string) * world;
  json_loads : string -> outcome pyval;
  run_error : fstring -> world -> option (exn * world)
}.

(** ** What the script prints, one constructor per [print] *)

Inductive line : Type :=
| Step1 (category_uuid : string) (days : Z)
| ExportFailed (err : string)
| ExportNoData
| ExportOk
| ExportUnexpected (e : exn)
| Formatting (provider : string)
| SystemPrompt (p : fstring)
| Sending (provider : string)
| AICallOk
| AIError (e : exn)
| UpdateFailed (transaction_id : pyval) (err : string)
| FatalNoKey (provider variable : string)
| FatalUnknownProvider (provider : string)
| ReportHead (found : Z)
| ReportLine (date : Z) (name amount currency : pyval)
| ReportRule
| Step2
| Categorized (n : Z)
| NoBooked
| Step3 (n : Z)
| NothingToUpdate
| AllUpdated
| SummaryHead
| SummaryExported (n : Z)
| SummaryUpdated (n : Z)
| SummaryRule
| AllDone.

(** ** The script as a state and exception monad *)

Section Script.

Variable E : Env.
Variable cfg : config.

Record state : Type := mkState {
  st_world : world E;
  st_trace : list event;
  st_log : list line
}.

Definition M (A : Type) : Type := state -> outcome A * state.

Definition ret {A} (a : A) : M A := fun s => (Ret a, s).

Definition lift {A} (o : outcome A) : M A := fun s => (o, s).

Definition bind {A B} (m : M A) (k : A -> M B) : M B :=
  fun s =>
    match m s with
    | (Ret a, s') => k a s'
    | (Raise e, s') => (Raise e, s')
    end.

(** [try: m  except Exception as e: h e]. *)
Definition try_except {A} (m : M A) (h : exn -> M A) : M A :=
  fun s =>
    match m s with
    | (Ret a, s') => (Ret a, s')
    | (Raise e, s') => h e s'
    end.

Definition print (l : line) : M unit :=
  fun s => (Ret tt, mkState (st_world s) (st_trace s) (st_log s ++ [l])).

Definition emit (ev : event) : M unit :=
  fun s => (Ret tt, mkState (st_world s) (st_trace s ++ [ev]) (st_log s)).

Definition call_osascript (script : fstring) : M proc :=
  fun s =>
    let (p, w) := osascript E script (st_world s) in
    (Ret p, mkState w (st_trace s) (st_log s)).

(** [subprocess.run(['osascript', '-e', script], check=True,
    capture_output=True, text=True)], short of the [CalledProcessError] of
    [check=True]: an argument with a NUL character raises [ValueError]
    before any process starts; else the call raises what [run_error] says,
    or returns the finished process. *)
Definition subprocess_run (script : fstring) : M proc :=
  fun s =>
    if embedded_nul script then (Raise ValueError, s)
    else
      match run_error E script (st_world s) with
      | Some (e, w) => (Raise e, mkState w (st_trace s) (st_log s))
      | None =>
          let (p, w) := osascript E script (st_world s) in
          (Ret p, mkState w (st_trace s) (st_log s))
      end.

Definition call_backend (c : client) (a : api) (r : request) : M (option string) :=
  fun s =>
    let (o, w) := ai_backend E c a r (st_world s) in
    (o, mkState w (st_trace s) (st_log s)).

Notation "x <- m ;; k" := (bind m (fun x => k))
  (at level 61, m at next level, right associativity).
Notation "m ;; k" := (bind m (fun _ => k))
  (at level 61, right associativity).

Fixpoint for_each {A} (l : list A) (body : A -> M unit) : M unit :=
  match l with
  | [] => ret tt
  | x :: l' => body x ;; for_each l' body
  end.

(** *** Stage 1: [export_transactions_from_moneymoney] *)

Definition export_script (category_uuid : string) (from_date : Z) : fstring :=
  [Lit "tell application "; Q; Lit "MoneyMoney"; Q;
   Lit " to export transactions from category "; Q;
   Str (PStr category_uuid); Q; Lit " from date "; Q; Ymd from_date; Q;
   Lit " as "; Q; Lit "plist"; Q].

Definition export_transactions_from_moneymoney (category_uuid : string)
  : M (option pyval) :=
  print (Step1 category_uuid (DAYS_TO_EXPORT cfg)) ;;
  from_date <- lift (date_sub_days (today E) (DAYS_TO_EXPORT cfg)) ;;
  let applescript_code := export_script category_uuid from_date in
  try_except
    (emit (Popen applescript_code) ;;
     pipe <- call_osascript applescript_code ;;
     if negb (returncode pipe =? 0) then
       print (ExportFailed (stderr pipe)) ;; ret None
     else if negb (truthy (PBytes (stdout pipe))) then
       print ExportNoData ;; ret None
     else
       parsed_data <- lift (plistlib_loads E (stdout pipe)) ;;
       print ExportOk ;;
       ret (Some parsed_data))
    (fun e => print (ExportUnexpected e) ;; ret None).

(** *** Stage 2: [get_ai_categories_batch] *)

(** One pass of the loop that fills [input_json_list]. *)
Definition request_item (trx : pyval) : outcome (pyval * fstring) :=
  match py_get trx "purpose" (PStr EmptyString) with
  | Raise e => Raise e
  | Ret purpose =>
      match py_get trx "name" (PStr EmptyString) with
      | Raise e => Raise e
      | Ret recipient =>
          let detail_for_ai := [Str recipient; Lit " - "; Str purpose] in
          match py_item trx "id" with
          | Raise e => Raise e
          | Ret i => Ret (i, detail_for_ai)
          end
      end
  end.

Fixpoint input_json_list (transactions_to_process : list pyval)
  : outcome (list (pyval * fstring)) :=
  match transactions_to_process with
  | [] => Ret []
  | trx :: rest =>
      match request_item trx with
      | Raise e => Raise e
      | Ret it =>
          match input_json_list rest with
          | Raise e => Raise e
          | Ret its => Ret (it :: its)
          end
      end
  end.

(** [json.dumps(input_json_list, indent=2)]: the details are strings, so
    only an identifier can be refused. *)
Definition json_dumps (items : list (pyval * fstring))
  : outcome (list (pyval * fstring)) :=
  if forallb (fun it => json_serializable (fst it)) items
  then Ret items else Raise TypeError.

Definition system_prompt : fstring :=
  [Lit "
    You are an expert financial assistant. You will be given a JSON array of bank transactions.
    Your task is to categorize each transaction and return a valid JSON object as a response.
    The JSON object MUST contain a single key, ";
   Q; Lit "categorized_transactions"; Q;
   Lit ", which is an array of objects.
    Each object in the response array MUST contain the original 'id' and a 'category' key.
    The category MUST be one of the following: ";
   Str (PList (map PStr (AVAILABLE_CATEGORIES cfg)));
   Lit ". When in doubt, categorize as ";
   Q; Lit "Uncategorized"; Q;
   Lit ".
    Do not include any other text or explanations in your response.
    "].

(** One entry of the backend's list, as the dictionary comprehension reads
    it: first the key [item['id']], then the value [item['category']]; the
    key must be hashable to be stored. *)
Definition entry (item : pyval) : outcome (pyval * pyval) :=
  match py_item item "id" with
  | Raise e => Raise e
  | Ret k =>
      match py_item item "category" with
      | Raise e => Raise e
      | Ret v => if hashable k then Ret (k, v) else Raise TypeError
      end
  end.

(** [{item['id']: item['category'] for item in categorized_list}], entries
    stored from left to right into the dictionary [acc]. *)
Fixpoint comprehension (acc : pydict) (categorized_list : list pyval)
  : outcome pydict :=
  match categorized_list with
  | [] => Ret acc
  | item :: rest =>
      match entry item with
      | Raise e => Raise e
      | Ret (k, v) => comprehension (dict_set acc k v) rest
      end
  end.

(** Lines 106 and 107: from the parsed response to the mapping. *)
Definition id_to_category_map (response : pyval) : outcome pydict :=
  match py_get response "categorized_transactions" (PList []) with
  | Raise e => Raise e
  | Ret categorized_list =>
      match py_iter categorized_list with
      | Raise e => Raise e
      | Ret items => comprehension [] items
      end
  end.

(** The request of the [openai] and [deepseek] branch, lines 83 to 91, and
    of the [anthropic] branch, lines 95 to 102. *)
Definition chat_request (provider : string) (input_json_string : list (pyval * fstring))
  : request :=
  let model_name :=
    if String.eqb provider "openai" then "gpt-4o" else "deepseek-chat" in
  {| rq_model := model_name; rq_json_object := true; rq_max_tokens := None;
     rq_system := system_prompt; rq_items := input_json_string |}.

Definition messages_request (input_json_string : list (pyval * fstring)) : request :=
  {| rq_model := "claude-3-sonnet-20240229"; rq_json_object := false;
     rq_max_tokens := Some 4096; rq_system := system_prompt;
     rq_items := input_json_string |}.

(** [json.loads(response_content)]; the content of a message can be [None]. *)
Definition loads_content (response_content : option string) : outcome pyval :=
  match response_content with
  | Some text => json_loads E text
  | None => Raise TypeError
  end.

Definition get_ai_categories_batch (c : client) (provider : string)
  (transactions_to_process : list pyval) : M pydict :=
  print (Formatting provider) ;;
  items <- lift (input_json_list transactions_to_process) ;;
  input_json_string <- lift (json_dumps items) ;;
  print (SystemPrompt system_prompt) ;;
  print (Sending provider) ;;
  try_except
    (response_content <-
       (if String.eqb provider "openai" || String.eqb provider "deepseek" then
          let r := chat_request provider input_json_string in
          emit (AICall c chat_completions_create r) ;;
          call_backend c chat_completions_create r
        else if String.eqb provider "anthropic" then
          let r := messages_request input_json_string in
          emit (AICall c messages_create r) ;;
          call_backend c messages_create r
        else ret (Some EmptyString)) ;;
     print AICallOk ;;
     parsed <- lift (loads_content response_content) ;;
     id_to_category_map <- lift (id_to_category_map parsed) ;;
     ret id_to_category_map)
    (fun e => print (AIError e) ;; ret []).

(** *** Stage 3: [update_transaction_in_moneymoney] *)

Definition update_script (transaction_id new_category : pyval) : fstring :=
  [Lit "tell application "; Q; Lit "MoneyMoney"; Q;
   Lit " to set transaction id "; Str transaction_id;
   Lit " category to "; Q; Str new_category; Q].

(** Lines 123 to 126: only the [CalledProcessError] of a non-zero exit is
    caught; whatever else [subprocess.run] raises goes on to the caller. *)
Definition update_transaction_in_moneymoney (transaction_id new_category : pyval)
  : M unit :=
  let applescript_code := update_script transaction_id new_category in
  emit (Run applescript_code) ;;
  p <- subprocess_run applescript_code ;;
  if negb (returncode p =? 0) then
    print (UpdateFailed transaction_id (stderr p))
  else ret tt.

(** *** The script body, under [if __name__ == "__main__"] *)

Inductive status : Type :=
| Finished
| Exited (code : Z)
| Crashed (e : exn).

(** [not os.getenv(name)]: the variable is unset or empty. *)
Definition no_key (name : string) : bool :=
  match getenv E name with
  | Some v => negb (truthy (PStr v))
  | None => true
  end.

(** Lines 130 to 154: the client for the chosen provider, or the message of
    the fatal error that precedes [exit(1)]. *)
Definition init_client : line + client :=
  if String.eqb (AI_PROVIDER cfg) "openai" then
    if no_key "OPENAI_API_KEY"
    then inl (FatalNoKey "openai" "OPENAI_API_KEY")
    else inr (OpenAI None None)
  else if String.eqb (AI_PROVIDER cfg) "anthropic" then
    if no_key "ANTHROPIC_API_KEY"
    then inl (FatalNoKey "anthropic" "ANTHROPIC_API_KEY")
    else inr Anthropic
  else if String.eqb (AI_PROVIDER cfg) "deepseek" then
    if no_key "DEEPSEEK_API_KEY"
    then inl (FatalNoKey "deepseek" "DEEPSEEK_API_KEY")
    else inr (OpenAI (getenv E "DEEPSEEK_API_KEY")
                     (Some "https://api.deepseek.com/v1"))
  else inl (FatalUnknownProvider (AI_PROVIDER cfg)).

(** One pass of the loop of the export report, lines 162 to 166. *)
Definition report_line (trx : pyval) : M unit :=
  d <- lift (py_get trx "bookingDate" (PDate (now E))) ;;
  date_str <- lift (py_strftime d) ;;
  name <- lift (py_get trx "name" (PStr "N/A")) ;;
  amount <- lift (py_get trx "amount" (PFloat (S754_zero false))) ;;
  currency <- lift (py_get trx "currency" (PStr EmptyString)) ;;
  lift (format_2f amount) ;;
  print (ReportLine date_str name amount currency).

(** [[trx for trx in all_transactions if trx.get('booked')]]. *)
Fixpoint booked_only (all_transactions : list pyval) : outcome (list pyval) :=
  match all_transactions with
  | [] => Ret []
  | trx :: rest =>
      match py_get trx "booked" PNone with
      | Raise e => Raise e
      | Ret b =>
          match booked_only rest with
          | Raise e => Raise e
          | Ret l => Ret (if truthy b then trx :: l else l)
          end
      end
  end.

Definition len {A} (l : list A) : Z := Z.of_nat (List.length l).

(** Lines 169 to 176. *)
Definition stage2 (ai_client : client) (all_transactions : list pyval)
  : M pydict :=
  print Step2 ;;
  transactions_to_categorize <- lift (booked_only all_transactions) ;;
  match transactions_to_categorize with
  | _ :: _ =>
      updated_transactions_map <-
        get_ai_categories_batch ai_client (AI_PROVIDER cfg)
          transactions_to_categorize ;;
      print (Categorized (len updated_transactions_map)) ;;
      ret updated_transactions_map
  | [] => print NoBooked ;; ret []
  end.

(** Lines 178 to 184. *)
Definition stage3 (updated_transactions_map : pydict) : M unit :=
  print (Step3 (len updated_transactions_map)) ;;
  match updated_transactions_map with
  | [] => print NothingToUpdate
  | _ :: _ =>
      for_each updated_transactions_map
        (fun kv => update_transaction_in_moneymoney (fst kv) (snd kv)) ;;
      print AllUpdated
  end.

(** Lines 156 to 190. *)
Definition pipeline (ai_client : client) : M unit :=
  exported_data <-
    export_transactions_from_moneymoney (UNCATGEGORIZED_CATEGORY_UUID cfg) ;;
  match exported_data with
  | None => ret tt
  | Some data =>
      if truthy data then
        transactions <- lift (py_get data "transactions" (PList [])) ;;
        found <- lift (py_len transactions) ;;
        print (ReportHead found) ;;
        all_transactions <- lift (py_iter transactions) ;;
        for_each all_transactions report_line ;;
        print ReportRule ;;
        updated_transactions_map <- stage2 ai_client all_transactions ;;
        stage3 updated_transactions_map ;;
        print SummaryHead ;;
        print (SummaryExported found) ;;
        print (SummaryUpdated (len updated_transactions_map)) ;;
        print SummaryRule ;;
        print AllDone
      else ret tt
  end.

Definition start (w : world E) : state := mkState w [] [].

Definition main (w : world E) : status * state :=
  match init_client with
  | inl fatal => (Exited 1, snd (print fatal (start w)))
  | inr ai_client =>
      match pipeline ai_client (start w) with
      | (Ret _, s) => (Finished, s)
      | (Raise e, s) => (Crashed e, s)
      end
  end.

End Script.

Arguments st_world {E} s.
Arguments st_trace {E} s.
Arguments st_log {E} s.

Arguments export_transactions_from_moneymoney : simpl never.
Arguments get_ai_categories_batch : simpl never.
Arguments update_transaction_in_moneymoney : simpl never.
Arguments stage2 : simpl never.
Arguments stage3 : simpl never.
Arguments pipeline : simpl never.

(** No key of the dictionary equals a later one. *)
Fixpoint distinct_keys (d : pydict) : bool :=
  match d with
  | [] => true
  | (k, _) :: d' =>
      negb (existsb (fun kv => py_eq k (fst kv)) d') && distinct_keys d'
  end.

(** ** The backend's response, entry by entry

    The (identifier, category) pairs of the entries of a response, when all
    of them are well formed: each entry a dictionary with an ['id'] that can
    be a key and a ['category']. *)

Fixpoint entries (items : list pyval) : outcome (list (pyval * pyval)) :=
  match items with
  | [] => Ret []
  | item :: rest =>
      match entry item with
      | Raise e => Raise e
      | Ret kv =>
          match entries rest with
          | Raise e => Raise e
          | Ret l => Ret (kv :: l)
          end
      end
  end.

Definition response_entries (response : pyval) : outcome (list (pyval * pyval)) :=
  match py_get response "categorized_transactions" (PList []) with
  | Raise e => Raise e
  | Ret categorized_list =>
      match py_iter categorized_list with
      | Raise e => Raise e
      | Ret items => entries items
      end
  end.

Definition store (d : pydict) (kv : pyval * pyval) : pydict :=
  dict_set d (fst kv) (snd kv).

(** The category of the last entry, in the order of the collection, whose
    identifier equals [k]. *)
Definition last_category (es : list (pyval * pyval)) (k : pyval) : option pyval :=
  option_map snd (find (fun e => py_eq (fst e) k) (rev es)).

(** ** The classifier's exchange with the backend

    The call that [get_ai_categories_batch] makes for a provider, and the
    parsed answer it gets in a world [w]. *)

Definition backend_call (cfg : config) (provider : string)
  (items : list (pyval * fstring)) : option (api * request) :=
  if String.eqb provider "openai" || String.eqb provider "deepseek"
  then Some (chat_completions_create, chat_request cfg provider items)
  else if String.eqb provider "anthropic"
  then Some (messages_create, messages_request cfg items)
  else None.

Definition backend_answer (E : Env) (cfg : config) (c : client) (provider : string)
  (items : list (pyval * fstring)) (w : world E) : outcome pyval * world E :=
  match backend_call cfg provider items with
  | Some (a, r) =>
      let (o, w') := ai_backend E c a r w in
      (match o with
       | Ret content => loads_content E content
       | Raise e => Raise e
       end, w')
  | None => (loads_content E (Some EmptyString), w)
  end.

(** The mapping the classifier returns for a parsed answer: the whole
    mapping, or the empty one after any exception. *)
Definition mapping_of (answer : outcome pyval) : pydict :=
  match answer with
  | Ret response =>
      match id_to_category_map response with
      | Ret m => m
      | Raise _ => []
      end
  | Raise _ => []
  end.

(** A defective entry of the results collection: not an object, or an
    object without ['id'], without ['category'], or with an ['id'] that
    cannot be a key. *)
Definition bad_entry (item : pyval) : Prop :=
  match item with
  | PDict d =>
      assoc "id" d = None \/ assoc "category" d = None \/
      exists k, assoc "id" d = Some k /\ hashable k = false
  | _ => True
  end.

(** A malformed answer: the backend or the parser raised; the answer is
    not an object; it has no results field; the field is not a list; one of
    the entries is defective. *)
Inductive malformed : outcome pyval -> Prop :=
| backend_raised (e : exn) : malformed (Raise e)
| not_an_object (response : pyval) :
    (forall d, response <> PDict d) -> malformed (Ret response)
| no_results (d : list (string * pyval)) :
    assoc "categorized_transactions" d = None -> malformed (Ret (PDict d))
| results_not_a_list (d : list (string * pyval)) (x : pyval) :
    assoc "categorized_transactions" d = Some x ->
    (forall l, x <> PList l) -> malformed (Ret (PDict d))
| defective_entry (d : list (string * pyval)) (l : list pyval) (item : pyval) :
    assoc "categorized_transactions" d = Some (PList l) ->
    In item l -> bad_entry item -> malformed (Ret (PDict d)).

(** The keys of a mapping are identifiers that were submitted. *)
Definition keys_submitted (m : pydict) (items : list (pyval * fstring)) : Prop :=
  forall k, In k (map fst m) ->
  exists i, In i (map fst items) /\ py_eq k i = true.

(** ** Concrete environments

    A world that counts the [osascript] calls made so far: the first call,
    the export, finishes as [export]; every later one, an update, as
    [update] says for its script.  The parsers and the backend answer the
    same whatever they are given, and [subprocess.run] raises nothing of
    its own. *)
Definition scripted (day : Z) (keys : string -> option string)
  (export : proc) (update : fstring -> proc) (plist : outcome pyval)
  (reply : outcome (option string)) (json : outcome pyval) : Env :=
  {| world := nat;
     today := day;
     now := 63898000000;
     getenv := keys;
     osascript := fun script w =>
       (match w with O => export | S _ => update script end, S w);
     plistlib_loads := fun _ => plist;
     ai_backend := fun _ _ _ w => (reply, w);
     json_loads := fun _ => json;
     run_error := fun _ _ => None |}.

Definition exit_with (code : Z) (out : list Byte.byte) (err : string) : proc :=
  {| returncode := code; stdout := out; stderr := err |}.

Definition done : proc := exit_with 0 [Byte.x62] EmptyString.

Definition all_keys (name : string) : option string := Some "sk-test".

Definition transaction (i : Z) (name purpose : string) (booked : bool) : pyval :=
  PDict [("id", PInt i); ("bookingDate", PDate 63897000000);
         ("name", PStr name); ("purpose", PStr purpose);
         ("amount", PInt (-25)); ("currency", PStr "EUR");
         ("booked", PBool booked)].

Definition result (i : Z) (category : string) : pyval :=
  PDict [("id", PInt i); ("category", PStr category)].

Definition results (l : list pyval) : pyval :=
  PDict [("categorized_transactions", PList l)].

(** 2026-11-04. *)
Definition a_day : Z := 739924.

(** The backend answers about a transaction nobody asked about. *)
Definition stray_env : Env :=
  scripted a_day all_keys done (fun _ => done)
    (Ret (PDict [("transactions", PList [transaction 1 "Landlord" "rent" true])]))
    (Ret (Some "{...}"))
    (Ret (results [result 2 "Pets"])).

(** ** The writer's exchange with the finance application *)

Definition update_scripts (m : pydict) : list fstring :=
  map (fun kv => update_script (fst kv) (snd kv)) m.

(** What [osascript] answers to a sequence of scripts run one after the
    other from the world [w], and the world they leave. *)
Fixpoint replies (E : Env) (scripts : list fstring) (w : world E)
  : list proc * world E :=
  match scripts with
  | [] => ([], w)
  | script :: rest =>
      let (p, w') := osascript E script w in
      let (ps, w'') := replies E rest w' in
      (p :: ps, w'')
  end.

(** The calls for a sequence of update scripts, run one after the other
    from the world [w], all come to an end: none has a NUL character in its
    script and [subprocess.run] raises for none. *)
Fixpoint completes (E : Env) (scripts : list fstring) (w : world E) : Prop :=
  match scripts with
  | [] => True
  | script :: rest =>
      embedded_nul script = false /\
      run_error E script w = None /\
      completes E rest (snd (osascript E script w))
  end.


(** One message for each entry whose call exited with a non-zero status. *)
Definition failures (m : pydict) (ps : list proc) : list line :=
  flat_map
    (fun x =>
       if negb (returncode (snd x) =? 0)
       then [UpdateFailed (fst (fst x)) (stderr (snd x))]
       else [])
    (combine m ps).

(** The backend names a category outside the allowed set. *)
Definition inventive_env : Env :=
  scripted a_day all_keys done (fun _ => done)
    (Ret (PDict [("transactions", PList [transaction 1 "Casino" "chips" true])]))
    (Ret (Some "{...}"))
    (Ret (results [result 1 "Gambling"])).

(** A category with a NUL character in it, as the JSON text
    ["Pets\u0000x"] gives. *)
Definition nul_category : string :=
  String.append "Pets" (String Ascii.zero "x").

(** The finance application refuses the update of transaction 1 only. *)
Definition refusing_env : Env :=
  scripted a_day all_keys done
    (fun script =>
       if existsb (fun p => match p with Str (PInt 1) => true | _ => false end) script
       then exit_with 1 [] "no such transaction" else done)
    (Ret (PDict [("transactions", PList [])]))
    (Ret (Some "{...}"))
    (Ret (results [])).

(** ** The booked transactions *)

(** The test of the filter of line 170, [trx.get('booked')], as a boolean;
    for a record whose flag is a boolean it is the flag. *)
Definition booked (trx : pyval) : bool :=
  match py_get trx "booked" PNone with
  | Ret b => truthy b
  | Raise _ => false
  end.

Definition known_provider (provider : string) : bool :=
  String.eqb provider "openai" || String.eqb provider "anthropic" ||
  String.eqb provider "deepseek".

(** A record the payload loop can take: a dictionary that, when booked,
    has an ['id'] that [json.dumps] accepts. *)
Definition sendable (trx : pyval) : bool :=
  match trx with
  | PDict d =>
      negb (booked trx) ||
      match assoc "id" d with
      | Some i => json_serializable i
      | None => false
      end
  | _ => false
  end.

(** The requests to the backend among the events of a trace. *)
Definition is_request (items : list (pyval * fstring)) (ev : event) : Prop :=
  exists c a rq, ev = AICall c a rq /\ rq_items rq = items.

(** Three transactions, the second still pending. *)
Definition three_env : Env :=
  scripted a_day all_keys done (fun _ => done)
    (Ret (PDict [("transactions",
                  PList [transaction 1 "Grocery Store" "weekly shop" true;
                         transaction 2 "Landlord" "rent" false;
                         transaction 3 "Vet Clinic" "checkup" true])]))
    (Ret (Some "{...}"))
    (Ret (results [result 1 "Shopping"; result 3 "Pets"])).

(** ** The exporter's exchange with the finance application *)

(** What the exporter returns and prints for a finished [osascript]. *)
Definition export_verdict (E : Env) (p : proc) : option pyval * line :=
  if negb (returncode p =? 0) then (None, ExportFailed (stderr p))
  else
    match stdout p with
    | [] => (None, ExportNoData)
    | _ :: _ =>
        match plistlib_loads E (stdout p) with
        | Ret v => (Some v, ExportOk)
        | Raise e => (None, ExportUnexpected e)
        end
    end.

(** The export fails: the call exits non-zero, returns no data, or returns
    a payload that cannot be parsed. *)
Definition export_fails (E : Env) (p : proc) : Prop :=
  returncode p <> 0 \/ stdout p = [] \/
  exists e, plistlib_loads E (stdout p) = Raise e.

(** The lines that begin with the word ERROR. *)
Definition is_error (l : line) : bool :=
  match l with
  | ExportFailed _ | ExportNoData | ExportUnexpected _ | AIError _
  | UpdateFailed _ _ | FatalNoKey _ _ | FatalUnknownProvider _ => true
  | _ => false
  end.

(** The lines of the final summary. *)
Definition is_summary (l : line) : bool :=
  match l with
  | SummaryHead | SummaryExported _ | SummaryUpdated _ | SummaryRule => true
  | _ => false
  end.

(** The environment variable that holds the key of a provider. *)
Definition key_variable (provider : string) : option string :=
  if String.eqb provider "openai" then Some "OPENAI_API_KEY"
  else if String.eqb provider "anthropic" then Some "ANTHROPIC_API_KEY"
  else if String.eqb provider "deepseek" then Some "DEEPSEEK_API_KEY"
  else None.

(** A configuration error: the provider is unknown, or the variable of its
    key is missing (or empty). *)
Definition configuration_error (E : Env) (cfg : config) : Prop :=
  match key_variable (AI_PROVIDER cfg) with
  | None => True
  | Some variable =>
      getenv E variable = None \/ getenv E variable = Some EmptyString
  end.

(** The export call exits with status 1. *)
Definition failing_env : Env :=
  scripted a_day all_keys (exit_with 1 [] "MoneyMoney got an error")
    (fun _ => done) (Raise ValueError) (Ret None) (Raise ValueError).

(** The export call exits with status 0 and prints nothing. *)
Definition silent_env : Env :=
  scripted a_day all_keys (exit_with 0 [] EmptyString)
    (fun _ => done) (Raise ValueError) (Ret None) (Raise ValueError).

(** No key is set. *)
Definition keyless_env : Env :=
  scripted a_day (fun _ => None) done (fun _ => done)
    (Raise ValueError) (Ret None) (Raise ValueError).

(** A lookback window of a million days. *)
Definition long_window : config := {|
  AI_PROVIDER := "deepseek";
  UNCATGEGORIZED_CATEGORY_UUID := "a2fea395-d50a-41f9-913a-4a73dec89e72";
  DAYS_TO_EXPORT := 1000000;
  AVAILABLE_CATEGORIES := ["Uncategorized"]
|}.

(** ** Well-formed records

    A record the script can handle: a dictionary whose booking date, when
    present, is a date, whose amount, when present, can be printed with two
    decimals, and which, when booked, has an identifier that [json.dumps]
    accepts. *)
Definition record_ok (trx : pyval) : bool :=
  match trx with
  | PDict d =>
      match assoc "bookingDate" d with
      | Some (PDate _) | None => true
      | Some _ => false
      end &&
      match assoc "amount" d with
      | Some a => match format_2f a with Ret _ => true | Raise _ => false end
      | None => true
      end &&
      (negb (booked trx) ||
       match assoc "id" d with
       | Some i => json_serializable i
       | None => false
       end)
  | _ => false
  end.



(** The backend answers twice about transaction 1. *)
Definition repeating_env : Env :=
  scripted a_day all_keys done (fun _ => done)
    (Ret (PDict [("transactions", PList [transaction 1 "Vet Clinic" "checkup" true;
                                         transaction 2 "Landlord" "rent" true])]))
    (Ret (Some "{...}"))
    (Ret (results [result 1 "Pets"; result 2 "Real Estate"; result 1 "Shopping"])).

(** ** Order of the keys, and records the classifier cannot send *)

(** The identifiers of a list in the order of their first occurrence, each
    in the spelling of that occurrence; [seen] holds the keys met so far. *)
Fixpoint first_occurrences (seen ids : list pyval) : list pyval :=
  match ids with
  | [] => []
  | k :: rest =>
      if existsb (fun x => py_eq x k) seen
      then first_occurrences seen rest
      else k :: first_occurrences (seen ++ [k]) rest
  end.

(** A record from which no request item can be made: not a dictionary, a
    dictionary without ['id'], or one whose ['id'] [json.dumps] refuses. *)
Definition unsendable (trx : pyval) : Prop :=
  match trx with
  | PDict d =>
      match assoc "id" d with
      | Some i => json_serializable i = false
      | None => True
      end
  | _ => True
  end.

(** The replies that exited with a non-zero status. *)
Definition refused (ps : list proc) : list proc :=
  filter (fun p => negb (returncode p =? 0)) ps.

(** What the backend itself returns to the classifier's call in a world
    [w], before any parsing. *)
Definition backend_reply (E : Env) (cfg : config) (c : client) (provider : string)
  (items : list (pyval * fstring)) (w : world E) : outcome (option string) :=
  match backend_call cfg provider items with
  | Some (a, r) => fst (ai_backend E c a r w)
  | None => Ret (Some EmptyString)
  end.

(** What the classifier prints after its three opening lines. *)
Definition closing_lines (E : Env) (reply : outcome (option string)) : list line :=
  match reply with
  | Raise e => [AIError e]
  | Ret content =>
      AICallOk ::
      match loads_content E content with
      | Raise e => [AIError e]
      | Ret response =>
          match id_to_category_map response with
          | Raise e => [AIError e]
          | Ret _ => []
          end
      end
  end.

(** The backend answers twice about transaction 1, and its third entry
    has no category. *)
Definition halting_env : Env :=
  scripted a_day all_keys done (fun _ => done)
    (Ret (PDict [("transactions", PList [transaction 1 "Vet Clinic" "checkup" true;
                                         transaction 2 "Landlord" "rent" true])]))
    (Ret (Some "{...}"))
    (Ret (results [result 1 "Pets"; result 1 "Shopping";
                   PDict [("id", PInt 2)]])).

(** The backend answers with an object that has no results field. *)
Definition fieldless_env : Env :=
  scripted a_day all_keys done (fun _ => done)
    (Ret (PDict [("transactions", PList [transaction 1 "Vet Clinic" "checkup" true])]))
    (Ret (Some "{...}"))
    (Ret (PDict [("note", PStr "nothing to report")])).

(** Every update is refused. *)
Definition locked_env : Env :=
  scripted a_day all_keys done (fun _ => exit_with 1 [] "locked")
    (Ret (PDict [("transactions", PList [])]))
    (Ret (Some "{...}"))
    (Ret (results [])).

(** ** The whole run

    The transactions of an exported payload, the events of stage 2, the
    mapping it yields in a world [w], and the lines it prints. *)

Definition transactions_of (d : list (string * pyval)) : pyval :=
  match assoc "transactions" d with
  | Some x => x
  | None => PList []
  end.

(** A parsed payload that is an empty collection: an empty list, or a
    dictionary whose transactions are the empty list. *)
Definition empty_collection (v : pyval) : Prop :=
  match v with
  | PDict d => transactions_of d = PList []
  | PList [] => True
  | _ => False
  end.

(** The export succeeds and holds no transaction. *)
Definition vacant_env : Env :=
  scripted a_day all_keys done (fun _ => done)
    (Ret (PDict [("creator", PStr "MoneyMoney"); ("transactions", PList [])]))
    (Ret (Some "{...}"))
    (Ret (results [])).

Definition stage2_events (cfg : config) (c : client) (booked_ones : list pyval)
  (items : list (pyval * fstring)) : list event :=
  match booked_ones with
  | [] => []
  | _ :: _ =>
      match backend_call cfg (AI_PROVIDER cfg) items with
      | Some (a, rq) => [AICall c a rq]
      | None => []
      end
  end.

Definition stage2_mapping (E : Env) (cfg : config) (c : client)
  (booked_ones : list pyval) (items : list (pyval * fstring)) (w : world E)
  : pydict :=
  match booked_ones with
  | [] => []
  | _ :: _ => mapping_of (fst (backend_answer E cfg c (AI_PROVIDER cfg) items w))
  end.

Definition stage2_lines (E : Env) (cfg : config) (c : client)
  (booked_ones : list pyval) (items : list (pyval * fstring)) (w : world E)
  : list line :=
  Step2 ::
  match booked_ones with
  | [] => [NoBooked]
  | _ :: _ =>
      [Formatting (AI_PROVIDER cfg); SystemPrompt (system_prompt cfg);
       Sending (AI_PROVIDER cfg)] ++
      closing_lines E (backend_reply E cfg c (AI_PROVIDER cfg) items w) ++
      [Categorized (len (stage2_mapping E cfg c booked_ones items w))]
  end.

Definition summary (found updated : Z) : list line :=
  [SummaryHead; SummaryExported found; SummaryUpdated updated; SummaryRule;
   AllDone].

Definition is_report_line (l : line) : Prop :=
  exists date name amount currency, l = ReportLine date name amount currency.

(** Two transactions, both pending. *)
Definition pending_env : Env :=
  scripted a_day all_keys done (fun _ => done)
    (Ret (PDict [("transactions",
                  PList [transaction 1 "Grocery Store" "weekly shop" false;
                         transaction 2 "Landlord" "rent" false])]))
    (Ret (Some "{...}"))
    (Ret (results [result 1 "Shopping"])).

(** The export parses to an empty dictionary. *)
Definition hollow_env : Env :=
  scripted a_day all_keys done (fun _ => done)
    (Ret (PDict []))
    (Ret (Some "{...}"))
    (Ret (results [])).

(** The export parses to a list, not a dictionary. *)
Definition listed_env : Env :=
  scripted a_day all_keys done (fun _ => done)
    (Ret (PList [transaction 1 "Vet Clinic" "checkup" true]))
    (Ret (Some "{...}"))
    (Ret (results [])).

(** The second record of the export is a string. *)
Definition garbled_env : Env :=
  scripted a_day all_keys done (fun _ => done)
    (Ret (PDict [("transactions",
                  PList [transaction 1 "Vet Clinic" "checkup" true;
                         PStr "???"])]))
    (Ret (Some "{...}"))
    (Ret (results [])).

(** The backend answers with text that is no JSON. *)
Definition babbling_env : Env :=
  scripted a_day all_keys done (fun _ => done)
    (Ret (PDict [("transactions", PList [transaction 1 "Vet Clinic" "checkup" true])]))
    (Ret (Some "I think this is a pet expense."))
    (Raise ValueError).


(** The shape of a trace: at most one export call, then at most one
    request, then updates; a request only after an export, updates only
    after a request. *)
Definition in_order (trace : list event) : Prop :=
  exists pre ai runs,
    trace = pre ++ ai ++ map Run runs /\
    (pre = [] \/ exists script, pre = [Popen script]) /\
    (ai = [] \/ exists c a rq, ai = [AICall c a rq]) /\
    (ai <> [] -> pre <> []) /\
    (runs <> [] -> ai <> []).

(** Two records agree on what the classifier reads of them: both are
    dictionaries with the same ['id'], ['name'] and ['purpose'], present or
    not. *)
Definition same_id_name_purpose (trx trx' : pyval) : Prop :=
  match trx, trx' with
  | PDict d, PDict d' =>
      assoc "id" d = assoc "id" d' /\
      assoc "name" d = assoc "name" d' /\
      assoc "purpose" d = assoc "purpose" d'
  | _, _ => False
  end.

(** A window of minus five days. *)
Definition backward_window : config := {|
  AI_PROVIDER := "deepseek";
  UNCATGEGORIZED_CATEGORY_UUID := "a2fea395-d50a-41f9-913a-4a73dec89e72";
  DAYS_TO_EXPORT := -5;
  AVAILABLE_CATEGORIES := ["Uncategorized"]
|}.

(** * Properties *)

Ltac run :=
  unfold bind, try_except, print, emit, ret, lift, call_backend,
    call_osascript, subprocess_run; simpl.

(** ** Equality of keys *)

Lemma bytes_eqb_eq (a b : list Byte.byte) : bytes_eqb a b = true <-> a = b.
Proof.
  revert b; induction a as [|x a IH]; intros [|y b]; simpl;
    try (split; congruence).
  rewrite andb_true_iff, IH. split.
  - intros [H ->]. apply Byte.byte_dec_bl in H. now subst.
  - intros [= -> ->]. split; [apply Byte.byte_dec_lb|]; reflexivity.
Qed.

Lemma num_eqb_eq (a b : num) : num_eqb a b = true <-> a = b.
Proof.
  destruct a, b; simpl; try (split; congruence).
  - rewrite !andb_true_iff, Bool.eqb_true_iff, Pos.eqb_eq, Z.eqb_eq.
    split; [intros [[-> ->] ->]; reflexivity | intros [= -> -> ->]; auto].
  - rewrite Bool.eqb_true_iff. split; congruence.
Qed.

Lemma key_eqb_eq (a b : key) : key_eqb a b = true <-> a = b.
Proof.
  destruct a, b; simpl; try (split; congruence).
  - rewrite num_eqb_eq. split; congruence.
  - rewrite String.eqb_eq. split; congruence.
  - rewrite bytes_eqb_eq. split; congruence.
  - rewrite Z.eqb_eq. split; congruence.
Qed.

(** Two values are one key exactly when they have the same normal form. *)
Lemma py_eq_true (a b : pyval) :
  py_eq a b = true <-> exists k, key_of a = Some k /\ key_of b = Some k.
Proof.
  unfold py_eq. destruct (key_of a) as [x|], (key_of b) as [y|].
  - rewrite key_eqb_eq. split.
    + intros ->. now exists y.
    + intros (k & [= ->] & [= ->]). reflexivity.
  - split; [discriminate | intros (k & _ & H); discriminate].
  - split; [discriminate | intros (k & H & _); discriminate].
  - split; [discriminate | intros (k & H & _); discriminate].
Qed.

Lemma py_eq_sym (a b : pyval) : py_eq a b = py_eq b a.
Proof.
  destruct (py_eq a b) eqn:H1, (py_eq b a) eqn:H2; try reflexivity.
  - apply py_eq_true in H1 as (k & Ha & Hb).
    assert (py_eq b a = true) by (apply py_eq_true; eauto). congruence.
  - apply py_eq_true in H2 as (k & Hb & Ha).
    assert (py_eq a b = true) by (apply py_eq_true; eauto). congruence.
Qed.

Lemma py_eq_trans (a b c : pyval) :
  py_eq a b = true -> py_eq b c = true -> py_eq a c = true.
Proof.
  rewrite !py_eq_true. intros (k & Ha & Hb) (k' & Hb' & Hc).
  exists k. split; congruence.
Qed.

(** Keys equal to one another find the same entries. *)
Lemma py_eq_congr (k q x : pyval) :
  py_eq k q = true -> py_eq x k = py_eq x q.
Proof.
  intros H. destruct (py_eq x k) eqn:H1, (py_eq x q) eqn:H2; try reflexivity.
  - pose proof (py_eq_trans _ _ _ H1 H). congruence.
  - rewrite py_eq_sym in H.
    pose proof (py_eq_trans _ _ _ H2 H). congruence.
Qed.

(** ** The dictionary *)

Lemma dict_get_set (d : pydict) (k v q : pyval) :
  dict_get (dict_set d k v) q =
  if py_eq k q then Some v else dict_get d q.
Proof.
  induction d as [|[k' v'] d IH]; simpl.
  - reflexivity.
  - destruct (py_eq k' k) eqn:Hk; simpl.
    + destruct (py_eq k q) eqn:Hq.
      * rewrite <- (py_eq_congr k q k' Hq), Hk. reflexivity.
      * destruct (py_eq k' q) eqn:Hq'; [|reflexivity].
        rewrite py_eq_sym in Hk.
        pose proof (py_eq_trans _ _ _ Hk Hq'). congruence.
    + destruct (py_eq k' q) eqn:Hq'; [|exact IH].
      destruct (py_eq k q) eqn:Hq; [|reflexivity].
      rewrite (py_eq_congr k q k' Hq) in Hk. congruence.
Qed.

Lemma existsb_dict_set (x k v : pyval) (d : pydict) :
  existsb (fun kv => py_eq x (fst kv)) (dict_set d k v) = true ->
  existsb (fun kv => py_eq x (fst kv)) d = true \/ py_eq x k = true.
Proof.
  induction d as [|[k' v'] d IH]; simpl.
  - rewrite orb_false_r. auto.
  - destruct (py_eq k' k); simpl; rewrite !orb_true_iff; tauto.
Qed.

Lemma distinct_keys_set (d : pydict) (k v : pyval) :
  distinct_keys d = true -> distinct_keys (dict_set d k v) = true.
Proof.
  induction d as [|[k' v'] d IH]; simpl; [reflexivity|].
  rewrite andb_true_iff, negb_true_iff. intros [Hn Hd].
  destruct (py_eq k' k) eqn:Hk; simpl.
  - now rewrite Hn, Hd.
  - rewrite (IH Hd), andb_true_r, negb_true_iff.
    destruct (existsb _ (dict_set d k v)) eqn:Hex; [|reflexivity].
    apply existsb_dict_set in Hex as [H|H]; congruence.
Qed.

(** An entry of the dictionary after a store was there before or is the
    one stored. *)
Lemma in_dict_set (d : pydict) (k v x y : pyval) :
  In (x, y) (dict_set d k v) ->
  In (x, y) d \/ (y = v /\ (x = k \/ In x (map fst d))).
Proof.
  induction d as [|[k' v'] d IH]; simpl.
  - intros [[= <- <-]|[]]. auto.
  - destruct (py_eq k' k); simpl.
    + intros [[= <- <-]|H]; auto.
    + intros [[= <- <-]|H]; auto. destruct (IH H) as [?|(? & [?|?])]; auto.
Qed.

Lemma keys_dict_set (d : pydict) (k v x : pyval) :
  In x (map fst (dict_set d k v)) -> x = k \/ In x (map fst d).
Proof.
  induction d as [|[k' v'] d IH]; simpl.
  - intros [<-|[]]. auto.
  - destruct (py_eq k' k); simpl; intros [<-|H]; auto.
    destruct (IH H); auto.
Qed.

(** ** The dictionary comprehension *)

Lemma comprehension_entries (items : list pyval) (acc : pydict) :
  comprehension acc items =
  match entries items with
  | Ret es => Ret (fold_left store es acc)
  | Raise e => Raise e
  end.
Proof.
  revert acc; induction items as [|item rest IH]; intros acc; simpl.
  - reflexivity.
  - destruct (entry item) as [[k v]|e]; [|reflexivity].
    rewrite IH. destruct (entries rest); reflexivity.
Qed.

Lemma id_to_category_map_entries (response : pyval) :
  id_to_category_map response =
  match response_entries response with
  | Ret es => Ret (fold_left store es [])
  | Raise e => Raise e
  end.
Proof.
  unfold id_to_category_map, response_entries.
  destruct (py_get response _ _) as [l|e]; [|reflexivity].
  destruct (py_iter l) as [items|e]; [|reflexivity].
  apply comprehension_entries.
Qed.

Lemma last_category_cons (e : pyval * pyval) (es : list (pyval * pyval)) (q : pyval) :
  last_category (e :: es) q =
  match last_category es q with
  | Some v => Some v
  | None => if py_eq (fst e) q then Some (snd e) else None
  end.
Proof.
  unfold last_category. simpl rev.
  induction (rev es) as [|x l IH]; simpl.
  - destruct (py_eq (fst e) q); reflexivity.
  - destruct (py_eq (fst x) q); [reflexivity | exact IH].
Qed.

Lemma dict_get_fold (es : list (pyval * pyval)) (acc : pydict) (q : pyval) :
  dict_get (fold_left store es acc) q =
  match last_category es q with
  | Some v => Some v
  | None => dict_get acc q
  end.
Proof.
  revert acc; induction es as [|e es IH]; intros acc.
  - reflexivity.
  - simpl fold_left. rewrite IH, last_category_cons.
    destruct (last_category es q); [reflexivity|].
    unfold store. rewrite dict_get_set.
    destruct (py_eq (fst e) q); reflexivity.
Qed.

Lemma distinct_keys_fold (es : list (pyval * pyval)) (acc : pydict) :
  distinct_keys acc = true -> distinct_keys (fold_left store es acc) = true.
Proof.
  revert acc; induction es as [|e es IH]; intros acc H; simpl; [exact H|].
  apply IH, distinct_keys_set, H.
Qed.

Lemma comprehension_last_wins (response : pyval) (es : list (pyval * pyval)) :
  response_entries response = Ret es ->
  exists m,
    id_to_category_map response = Ret m /\
    distinct_keys m = true /\
    forall k, dict_get m k = last_category es k.
Proof.
  intros H. exists (fold_left store es []). split; [|split].
  - rewrite id_to_category_map_entries, H. reflexivity.
  - apply distinct_keys_fold. reflexivity.
  - intros k. rewrite dict_get_fold.
    destruct (last_category es k); reflexivity.
Qed.

Example true_is_one : py_eq (PBool true) (PInt 1) = true.
Proof. reflexivity. Qed.

Example one_point_zero_is_one :
  py_eq (PFloat (S754_finite false 4503599627370496 (-52))) (PInt 1) = true.
Proof. reflexivity. Qed.

Example nan_is_one_key : py_eq (PFloat S754_nan) (PFloat S754_nan) = true.
Proof. reflexivity. Qed.

Example nan_is_no_number : py_eq (PFloat S754_nan) (PInt 0) = false.
Proof. reflexivity. Qed.

Example text_one_is_not_one : py_eq (PStr "1") (PInt 1) = false.
Proof. reflexivity. Qed.

(** ** The classifier *)

(** Once the payload is built, the classifier always returns: it makes the
    one call of its provider and hands back the mapping of the answer. *)
Lemma classifier_run (E : Env) (cfg : config) (c : client) (provider : string)
  (ts : list pyval) (items : list (pyval * fstring)) (s : state E) :
  input_json_list ts = Ret items ->
  json_dumps items = Ret items ->
  let r := get_ai_categories_batch E cfg c provider ts s in
  let a := backend_answer E cfg c provider items (st_world s) in
  fst r = Ret (mapping_of (fst a)) /\
  st_world (snd r) = snd a /\
  st_trace (snd r) =
    st_trace s ++
    match backend_call cfg provider items with
    | Some (a, rq) => [AICall c a rq]
    | None => []
    end.
Proof.
  intros Hi Hd. unfold get_ai_categories_batch, backend_answer, backend_call.
  run. rewrite Hi; simpl. rewrite Hd; simpl.
  destruct (String.eqb provider "openai" || String.eqb provider "deepseek");
    [|destruct (String.eqb provider "anthropic")]; simpl.
  - destruct (ai_backend E c _ _ _) as [[content|e] w']; simpl; auto.
    destruct (loads_content E content) as [v|e]; simpl; auto.
    destruct (id_to_category_map v); simpl; auto.
  - destruct (ai_backend E c _ _ _) as [[content|e] w']; simpl; auto.
    destruct (loads_content E content) as [v|e]; simpl; auto.
    destruct (id_to_category_map v); simpl; auto.
  - rewrite app_nil_r.
    destruct (json_loads E EmptyString) as [v|e]; simpl; auto.
    destruct (id_to_category_map v); simpl; auto.
Qed.

Lemma entries_defect (l : list pyval) (item : pyval) :
  In item l -> bad_entry item -> exists e, entries l = Raise e.
Proof.
  induction l as [|x l IH]; simpl; [intros []|].
  intros [->|Hin] Hbad.
  - assert (exists e, entry item = Raise e) as [e He].
    { unfold entry. destruct item; simpl in *; eauto.
      destruct Hbad as [H|[H|(k & H & Hk)]].
      - rewrite H. eauto.
      - rewrite H. destruct (assoc "id" d); eauto.
      - rewrite H, Hk. destruct (assoc "category" d); eauto. }
    rewrite He. eauto.
  - destruct (IH Hin Hbad) as [e He]. rewrite He.
    destruct (entry x); eauto.
Qed.

(** What a loop visits in a value that is not a list is never an entry. *)
Lemma comprehension_not_a_list (x : pyval) (items : list pyval) :
  (forall l, x <> PList l) -> py_iter x = Ret items ->
  mapping_of (Ret (PDict [("categorized_transactions", x)])) = [].
Proof.
  intros Hx Hit. unfold mapping_of, id_to_category_map. simpl.
  rewrite Hit. destruct x; simpl in Hit; try discriminate.
  - injection Hit as <-. destruct s; reflexivity.
  - injection Hit as <-. destruct b; reflexivity.
  - now destruct (Hx l).
  - injection Hit as <-. destruct d; reflexivity.
Qed.

Lemma malformed_empty (answer : outcome pyval) :
  malformed answer -> mapping_of answer = [].
Proof.
  intros H. destruct H as [e|r Hr|d Hd|d x Hd Hx|d l item Hd Hin Hbad]; simpl.
  - reflexivity.
  - unfold id_to_category_map. destruct r; simpl; try reflexivity.
    now destruct (Hr d).
  - unfold id_to_category_map. simpl. rewrite Hd. reflexivity.
  - destruct (py_iter x) as [items|e] eqn:Hit.
    + pose proof (comprehension_not_a_list x items Hx Hit) as H.
      unfold mapping_of, id_to_category_map in *. simpl in *.
      rewrite Hd. exact H.
    + unfold id_to_category_map. simpl. rewrite Hd, Hit. reflexivity.
  - rewrite id_to_category_map_entries. unfold response_entries. simpl.
    rewrite Hd. simpl. destruct (entries_defect l item Hin Hbad) as [e ->].
    reflexivity.
Qed.

(** C10, as amended: the mapping the classifier returns never holds two
    keys that are one; when the entries of the backend's answer are all well
    formed, it gives every identifier the category of the last entry of the
    collection that carries it, however many entries do, and no category to
    an identifier that no entry carries; and when the answer is malformed,
    by one defective entry for instance, the mapping is empty. *)
Theorem last_duplicate_wins (E : Env) (cfg : config) (c : client)
  (provider : string) (ts : list pyval) (items : list (pyval * fstring))
  (s : state E) :
  input_json_list ts = Ret items ->
  json_dumps items = Ret items ->
  let answer := fst (backend_answer E cfg c provider items (st_world s)) in
  exists m,
    fst (get_ai_categories_batch E cfg c provider ts s) = Ret m /\
    distinct_keys m = true /\
    (forall response es,
       answer = Ret response -> response_entries response = Ret es ->
       forall k, dict_get m k = last_category es k) /\
    (malformed answer -> m = []).
Proof.
  intros Hi Hd answer.
  destruct (classifier_run E cfg c provider ts items s Hi Hd) as (Hr & _ & _).
  fold answer in Hr. exists (mapping_of answer). split; [exact Hr|].
  split; [|split].
  - destruct answer as [response|e]; simpl; [|reflexivity].
    rewrite id_to_category_map_entries.
    destruct (response_entries response); [|reflexivity].
    apply distinct_keys_fold. reflexivity.
  - intros response es -> Hes k. simpl.
    destruct (comprehension_last_wins response es Hes) as (m & -> & _ & Hm).
    apply Hm.
  - apply malformed_empty.
Qed.

Lemma last_duplicate_wins_witness :
  exists m,
    fst (get_ai_categories_batch repeating_env source_config
           (OpenAI None None) "deepseek"
           [transaction 1 "Vet Clinic" "checkup" true;
            transaction 2 "Landlord" "rent" true]
           (mkState repeating_env 1%nat [] [])) = Ret m /\
    distinct_keys m = true /\
    dict_get m (PInt 1) = Some (PStr "Shopping").
Proof.
  destruct (last_duplicate_wins repeating_env source_config
              (OpenAI None None) "deepseek"
              [transaction 1 "Vet Clinic" "checkup" true;
               transaction 2 "Landlord" "rent" true]
              [(PInt 1, [Str (PStr "Vet Clinic"); Lit " - "; Str (PStr "checkup")]);
               (PInt 2, [Str (PStr "Landlord"); Lit " - "; Str (PStr "rent")])]
              (mkState repeating_env 1%nat [] []) eq_refl eq_refl)
    as (m & Hm & Hd & Hl & _).
  exists m. split; [exact Hm|]. split; [exact Hd|].
  exact (Hl (results [result 1 "Pets"; result 2 "Real Estate"; result 1 "Shopping"])
            [(PInt 1, PStr "Pets"); (PInt 2, PStr "Real Estate");
             (PInt 1, PStr "Shopping")]
            eq_refl eq_refl (PInt 1)).
Defined.

(** C10, as stated, fails: the answer carries the identifier 1 twice, and
    a third entry without category; the comprehension raises at that entry
    and the classifier returns the empty mapping, in which the identifier 1
    has no category, not that of its last entry. *)
Lemma repeated_identifier_left_without_category :
  let answer := results [result 1 "Pets"; result 1 "Shopping";
                         PDict [("id", PInt 2)]] in
  let r := get_ai_categories_batch halting_env source_config
             (OpenAI None None) "deepseek"
             [transaction 1 "Vet Clinic" "checkup" true;
              transaction 2 "Landlord" "rent" true]
             (mkState halting_env 1%nat [] []) in
  json_loads halting_env "{...}" = Ret answer /\
  fst r = Ret [] /\
  forall m, fst r = Ret m -> dict_get m (PInt 1) <> Some (PStr "Shopping").
Proof.
  split; [reflexivity|]. split; [reflexivity|].
  intros m H. vm_compute in H. injection H as <-. discriminate.
Qed.

Lemma keys_fold (es : list (pyval * pyval)) (acc : pydict) (k : pyval) :
  In k (map fst (fold_left store es acc)) ->
  In k (map fst acc) \/ In k (map fst es).
Proof.
  revert acc; induction es as [|e es IH]; intros acc; simpl; [auto|].
  intros H. destruct (IH _ H) as [H'|H']; [|auto].
  apply keys_dict_set in H' as [->|H']; auto.
Qed.

(** C2, as amended: once the payload is built the classifier returns a
    mapping; each of its keys is the identifier of an entry of the backend's
    answer, whether or not it was submitted; a malformed answer gives the
    empty mapping; and the mapping is never partial: it is empty or the whole
    mapping of the answer. *)
Theorem classifier_keys_from_answer (E : Env) (cfg : config) (c : client)
  (provider : string) (ts : list pyval) (items : list (pyval * fstring))
  (s : state E) :
  input_json_list ts = Ret items ->
  json_dumps items = Ret items ->
  let answer := fst (backend_answer E cfg c provider items (st_world s)) in
  exists m,
    fst (get_ai_categories_batch E cfg c provider ts s) = Ret m /\
    (forall k, In k (map fst m) ->
       exists response es,
         answer = Ret response /\ response_entries response = Ret es /\
         In k (map fst es)) /\
    (malformed answer -> m = []) /\
    (m = [] \/
     exists response,
       answer = Ret response /\ id_to_category_map response = Ret m).
Proof.
  intros Hi Hd answer.
  destruct (classifier_run E cfg c provider ts items s Hi Hd) as (Hr & _ & _).
  fold answer in Hr. exists (mapping_of answer).
  split; [exact Hr|]. split; [|split].
  - intros k Hk. destruct answer as [response|e]; simpl in Hk; [|destruct Hk].
    rewrite id_to_category_map_entries in Hk.
    destruct (response_entries response) as [es|e] eqn:Hes; [|destruct Hk].
    exists response, es. split; [reflexivity|]. split; [exact Hes|].
    apply keys_fold in Hk as [[]|Hk]. exact Hk.
  - apply malformed_empty.
  - destruct answer as [response|e]; simpl; [|auto].
    destruct (id_to_category_map response) eqn:Hm; eauto.
Qed.

Lemma classifier_keys_from_answer_witness :
  exists m,
    fst (get_ai_categories_batch stray_env source_config
           (OpenAI None None) "deepseek"
           [transaction 1 "Landlord" "rent" true]
           (start stray_env 0%nat)) = Ret m /\
    In (PInt 2) (map fst m).
Proof.
  destruct (classifier_keys_from_answer stray_env source_config
              (OpenAI None None) "deepseek"
              [transaction 1 "Landlord" "rent" true]
              [(PInt 1, [Str (PStr "Landlord"); Lit " - "; Str (PStr "rent")])]
              (start stray_env 0%nat) eq_refl eq_refl)
    as (m & Hm & _ & _ & [Hempty|(response & Ha & Hmap)]).
  - exfalso. rewrite Hempty in Hm. vm_compute in Hm. discriminate.
  - exists m. split; [exact Hm|].
    vm_compute in Ha. injection Ha as <-.
    vm_compute in Hmap. injection Hmap as <-. left. reflexivity.
Defined.

(** C2, as stated, fails: asked about transaction 1, the backend answers
    about transaction 2, and the classifier returns the key 2. *)
Lemma classifier_key_not_submitted :
  input_json_list [transaction 1 "Landlord" "rent" true] =
    Ret [(PInt 1, [Str (PStr "Landlord"); Lit " - "; Str (PStr "rent")])] /\
  fst (get_ai_categories_batch stray_env source_config
         (OpenAI None None) "deepseek"
         [transaction 1 "Landlord" "rent" true]
         (start stray_env 0%nat)) = Ret [(PInt 2, PStr "Pets")] /\
  ~ keys_submitted [(PInt 2, PStr "Pets")]
      [(PInt 1, [Str (PStr "Landlord"); Lit " - "; Str (PStr "rent")])].
Proof.
  split; [reflexivity|]. split; [reflexivity|].
  intros H. destruct (H (PInt 2)) as (i & Hi & Heq); [left; reflexivity|].
  destruct Hi as [<-|[]]. vm_compute in Heq. discriminate.
Qed.

(** ** The writer *)

Lemma writer_loop (E : Env) (m : pydict) (s : state E) :
  completes E (update_scripts m) (st_world s) ->
  for_each E m (fun kv => update_transaction_in_moneymoney E (fst kv) (snd kv)) s =
  let r := replies E (update_scripts m) (st_world s) in
  (Ret tt,
   mkState E (snd r)
     (st_trace s ++ map Run (update_scripts m))
     (st_log s ++ failures m (fst r))).
Proof.
  revert s; induction m as [|[k v] m IH]; intros s Hc.
  - destruct s. unfold failures; simpl. unfold ret. now rewrite !app_nil_r.
  - change (completes E (update_script k v :: update_scripts m) (st_world s))
      in Hc.
    destruct Hc as (Hnul & Herr & Hc).
    simpl for_each. cbv zeta. simpl update_scripts. simpl replies.
    unfold bind at 1. unfold update_transaction_in_moneymoney at 1.
    unfold bind, emit, subprocess_run, print, ret.
    cbn [st_world st_trace st_log]. rewrite Hnul, Herr.
    destruct (osascript E (update_script k v) (st_world s)) as [p w'].
    cbn [snd] in Hc.
    destruct (returncode p =? 0) eqn:Hrc; cbn [negb];
      rewrite IH by exact Hc; cbn [st_world st_trace st_log];
      destruct (replies E (update_scripts m) w') as [ps w'']; simpl;
      unfold failures; simpl; rewrite Hrc; simpl;
      rewrite <- ?app_assoc; reflexivity.
Qed.

(** Whatever the calls do, those made are the calls of an initial part of
    the mapping, in its order. *)
Lemma writer_prefix (E : Env) (m : pydict) (s : state E) :
  exists n,
    (n <= List.length m)%nat /\ (m <> [] -> (0 < n)%nat) /\
    st_trace (snd (for_each E m
      (fun kv => update_transaction_in_moneymoney E (fst kv) (snd kv)) s)) =
    st_trace s ++ map Run (firstn n (update_scripts m)).
Proof.
  revert s; induction m as [|[k v] m IH]; intros s.
  - exists 0%nat. simpl. rewrite app_nil_r. repeat split; auto. congruence.
  - simpl for_each. simpl update_scripts.
    unfold bind at 1. unfold update_transaction_in_moneymoney at 1.
    unfold bind, emit, subprocess_run, print, ret.
    cbn [st_world st_trace st_log].
    assert (Hone : forall o (s1 : state E),
              st_trace s1 = st_trace s ++ [Run (update_script k v)] ->
              exists n, (n <= List.length ((k, v) :: m))%nat /\
                ((k, v) :: m <> [] -> (0 < n)%nat) /\
                st_trace (snd (@pair (outcome unit) _ o s1)) =
                st_trace s ++
                map Run (firstn n (update_script k v :: update_scripts m))).
    { intros o s1 H1. exists 1%nat. simpl. rewrite H1.
      repeat split; auto; lia. }
    assert (Hmore : forall (s1 : state E),
              st_trace s1 = st_trace s ++ [Run (update_script k v)] ->
              exists n, (n <= List.length ((k, v) :: m))%nat /\
                ((k, v) :: m <> [] -> (0 < n)%nat) /\
                st_trace (snd (for_each E m
                  (fun kv => update_transaction_in_moneymoney E (fst kv) (snd kv))
                  s1)) =
                st_trace s ++
                map Run (firstn n (update_script k v :: update_scripts m))).
    { intros s1 H1. destruct (IH s1) as (n & Hn & _ & Ht).
      exists (S n). simpl. rewrite Ht, H1, <- app_assoc.
      repeat split; auto; lia. }
    destruct (embedded_nul (update_script k v)); [apply Hone; reflexivity|].
    destruct (run_error E (update_script k v) (st_world s)) as [[e w1]|];
      [apply Hone; reflexivity|].
    destruct (osascript E (update_script k v) (st_world s)) as [p w'].
    destruct (returncode p =? 0); cbn [negb]; apply Hmore; reflexivity.
Qed.

Lemma stage3_prefix (E : Env) (m : pydict) (s : state E) :
  exists n,
    (n <= List.length m)%nat /\ (m <> [] -> (0 < n)%nat) /\
    st_trace (snd (stage3 E m s)) =
    st_trace s ++ map Run (firstn n (update_scripts m)).
Proof.
  unfold stage3. destruct m as [|kv m].
  - exists 0%nat. destruct s; run. rewrite app_nil_r.
    repeat split; auto. congruence.
  - unfold bind at 1. unfold print at 1. unfold bind at 1.
    match goal with
    | |- context [for_each E ?l ?f ?s'] =>
        destruct (writer_prefix E l s') as (n & Hn & Hpos & Ht);
        destruct (for_each E l f s') as [[u|e] s1]
    end; exists n; cbn [fst snd st_trace] in *;
      (split; [exact Hn|]); (split; [exact Hpos|]); exact Ht.
Qed.

(** The stage of the writer when all its calls come to an end. *)
Lemma stage3_eq (E : Env) (m : pydict) (s : state E) :
  completes E (update_scripts m) (st_world s) ->
  stage3 E m s =
  (Ret tt,
   mkState E (snd (replies E (update_scripts m) (st_world s)))
     (st_trace s ++ map Run (update_scripts m))
     (st_log s ++ Step3 (len m) ::
        match m with
        | [] => [NothingToUpdate]
        | _ :: _ =>
            failures m (fst (replies E (update_scripts m) (st_world s))) ++
            [AllUpdated]
        end)).
Proof.
  intros Hc. unfold stage3. destruct m as [|kv m].
  - destruct s; run. now rewrite app_nil_r, <- app_assoc.
  - unfold bind at 1. unfold print at 1. unfold bind at 1.
    rewrite writer_loop by exact Hc.
    cbv zeta. unfold print. cbn [st_world st_trace st_log].
    rewrite <- !app_assoc. reflexivity.
Qed.

(** C6, as amended: whatever the calls do, the update calls attempted are
    those of an initial part of the mapping, one for each of its entries and
    in their order, so none is repeated.  When every call comes to an end,
    with any exit status, the part is the whole mapping: one update call is
    attempted for each entry, each call that exits with a non-zero status is
    reported by a message of its own and keeps no later call from being
    made, and the stage returns. *)
Theorem one_update_per_entry (E : Env) (m : pydict) (s : state E) :
  (exists n,
     (n <= List.length m)%nat /\
     st_trace (snd (stage3 E m s)) =
       st_trace s ++ map Run (firstn n (update_scripts m))) /\
  (completes E (update_scripts m) (st_world s) ->
   let r := replies E (update_scripts m) (st_world s) in
   stage3 E m s =
   (Ret tt,
    mkState E (snd r)
      (st_trace s ++ map Run (update_scripts m))
      (st_log s ++ Step3 (len m) ::
         match m with
         | [] => [NothingToUpdate]
         | _ :: _ => failures m (fst r) ++ [AllUpdated]
         end))).
Proof.
  split.
  - destruct (stage3_prefix E m s) as (n & Hn & _ & Ht). eauto.
  - intros Hc. cbv zeta. apply stage3_eq, Hc.
Qed.

(** The update of transaction 1 is refused, that of transaction 2 is made
    all the same, and each is tried once. *)
Lemma one_update_per_entry_witness :
  stage3 refusing_env [(PInt 1, PStr "Pets"); (PInt 2, PStr "Tax")]
    (mkState refusing_env 1%nat [] []) =
  (Ret tt,
   mkState refusing_env 3%nat
     [Run (update_script (PInt 1) (PStr "Pets"));
      Run (update_script (PInt 2) (PStr "Tax"))]
     [Step3 2; UpdateFailed (PInt 1) "no such transaction"; AllUpdated]).
Proof.
  apply (proj2 (one_update_per_entry refusing_env
                  [(PInt 1, PStr "Pets"); (PInt 2, PStr "Tax")]
                  (mkState refusing_env 1%nat [] []))).
  simpl. auto.
Defined.

(** C6, as stated, fails: the category of the first entry holds a NUL
    character; [subprocess.run] raises [ValueError], which line 125 does not
    catch, and the update of the second entry is never attempted. *)
Lemma update_stops_at_an_exception :
  let m := [(PInt 1, PStr nul_category); (PInt 2, PStr "Tax")] in
  let r := stage3 refusing_env m (mkState refusing_env 1%nat [] []) in
  fst r = Raise ValueError /\
  st_trace (snd r) = [Run (update_script (PInt 1) (PStr nul_category))] /\
  ~ In (Run (update_script (PInt 2) (PStr "Tax"))) (st_trace (snd r)).
Proof.
  vm_compute. split; [reflexivity|]. split; [reflexivity|].
  intros [H|[]]. discriminate.
Qed.

(** ** Categories *)

Lemma values_fold (es : list (pyval * pyval)) (acc : pydict) (k v : pyval) :
  In (k, v) (fold_left store es acc) ->
  In (k, v) acc \/ In v (map snd es).
Proof.
  revert acc; induction es as [|e es IH]; intros acc; simpl; [auto|].
  intros H. destruct (IH _ H) as [H'|H']; [|auto].
  apply in_dict_set in H' as [H'|[-> _]]; auto.
Qed.

Lemma update_call (E : Env) (k v : pyval) (s : state E) :
  st_trace (snd (update_transaction_in_moneymoney E k v s)) =
  st_trace s ++ [Run (update_script k v)].
Proof.
  unfold update_transaction_in_moneymoney.
  unfold bind, emit, subprocess_run, print, ret. cbn [st_world st_trace st_log].
  destruct (embedded_nul (update_script k v)); [reflexivity|].
  destruct (run_error E (update_script k v) (st_world s)) as [[e w1]|];
    [reflexivity|].
  destruct (osascript E (update_script k v) (st_world s)) as [p w'].
  destruct (returncode p =? 0); reflexivity.
Qed.

(** C3, as amended: the category of every entry of the mapping is the
    ['category'] of an entry of the backend's answer, taken as it is; the
    call the writer makes for an entry runs the script that sets, for the
    identifier of the entry, the category to the value of the entry between
    quotes, as it is; and the calls of the writer's stage are such calls for
    entries of the mapping.  The allowed set takes no part in any of
    this. *)
Theorem categories_written_verbatim (E : Env) (response : pyval)
  (es : list (pyval * pyval)) (s : state E) :
  response_entries response = Ret es ->
  let script_of (kv : pyval * pyval) :=
    [Lit "tell application "; Q; Lit "MoneyMoney"; Q;
     Lit " to set transaction id "; Str (fst kv);
     Lit " category to "; Q; Str (snd kv); Q] in
  exists m,
    id_to_category_map response = Ret m /\
    (forall k v, In (k, v) m -> In v (map snd es)) /\
    (forall k v s',
       st_trace (snd (update_transaction_in_moneymoney E k v s')) =
       st_trace s' ++ [Run (script_of (k, v))]) /\
    exists n,
      (m <> [] -> (0 < n)%nat) /\
      st_trace (snd (stage3 E m s)) =
        st_trace s ++ map (fun kv => Run (script_of kv)) (firstn n m).
Proof.
  intros H script_of. exists (fold_left store es []). split; [|split; [|split]].
  - rewrite id_to_category_map_entries, H. reflexivity.
  - intros k v Hin. apply values_fold in Hin as [[]|Hin]. exact Hin.
  - intros k v s'. apply update_call.
  - destruct (stage3_prefix E (fold_left store es []) s) as (n & _ & Hpos & Ht).
    exists n. split; [exact Hpos|]. rewrite Ht. unfold update_scripts.
    rewrite firstn_map, map_map. reflexivity.
Qed.

Lemma categories_written_verbatim_witness :
  exists m,
    id_to_category_map (results [result 1 "Gambling"]) = Ret m /\
    st_trace (snd (update_transaction_in_moneymoney inventive_env
                     (PInt 1) (PStr "Gambling")
                     (mkState inventive_env 1%nat [] []))) =
    [Run [Lit "tell application "; Q; Lit "MoneyMoney"; Q;
          Lit " to set transaction id "; Str (PInt 1);
          Lit " category to "; Q; Str (PStr "Gambling"); Q]].
Proof.
  destruct (categories_written_verbatim inventive_env
              (results [result 1 "Gambling"]) [(PInt 1, PStr "Gambling")]
              (mkState inventive_env 1%nat [] []) eq_refl)
    as (m & Hm & _ & Hcall & _).
  exists m. split; [exact Hm|].
  exact (Hcall (PInt 1) (PStr "Gambling") (mkState inventive_env 1%nat [] [])).
Defined.

(** C3, as stated, fails: the backend names the category Gambling, which
    is not in the allowed set, and the script writes it back as it is, not
    the fallback. *)
Lemma category_outside_the_set_written :
  let trace := st_trace (snd (main inventive_env source_config 0%nat)) in
  In (Run (update_script (PInt 1) (PStr "Gambling"))) trace /\
  ~ In "Gambling" (AVAILABLE_CATEGORIES source_config) /\
  ~ In (Run (update_script (PInt 1) (PStr "Uncategorized"))) trace.
Proof.
  vm_compute. split; [|split].
  - right. right. left. reflexivity.
  - intros H. repeat (destruct H as [H|H]; [discriminate|]). exact H.
  - intros H. repeat (destruct H as [H|H]; [discriminate|]). exact H.
Qed.

(** ** The request payload *)

Lemma booked_only_filter (all : list pyval) (ts : list pyval) :
  booked_only all = Ret ts -> ts = filter booked all.
Proof.
  revert ts; induction all as [|trx all IH]; intros ts; simpl.
  - now intros [= <-].
  - unfold booked. destruct (py_get trx "booked" PNone) as [b|e]; [|discriminate].
    destruct (booked_only all) as [l|e]; [|discriminate].
    intros [= <-]. rewrite (IH l eq_refl). destruct (truthy b); reflexivity.
Qed.

Lemma input_json_list_items (ts : list pyval) (items : list (pyval * fstring)) :
  input_json_list ts = Ret items ->
  Forall2 (fun trx it => request_item trx = Ret it) ts items.
Proof.
  revert items; induction ts as [|trx ts IH]; intros items; simpl.
  - intros [= <-]. constructor.
  - destruct (request_item trx) as [it|e] eqn:Hit; [|discriminate].
    destruct (input_json_list ts) as [its|e]; [|discriminate].
    intros [= <-]. constructor; auto.
Qed.

Lemma stage2_run (E : Env) (cfg : config) (c : client) (all ts : list pyval)
  (items : list (pyval * fstring)) (s : state E) :
  booked_only all = Ret ts ->
  input_json_list ts = Ret items ->
  json_dumps items = Ret items ->
  let r := stage2 E cfg c all s in
  (exists m, fst r = Ret m) /\
  st_trace (snd r) =
    st_trace s ++
    match ts with
    | [] => []
    | _ :: _ =>
        match backend_call cfg (AI_PROVIDER cfg) items with
        | Some (a, rq) => [AICall c a rq]
        | None => []
        end
    end.
Proof.
  intros Hb Hi Hd. cbv zeta. unfold stage2. run. rewrite Hb.
  destruct ts as [|t ts].
  - simpl. rewrite app_nil_r. eauto.
  - pose proof (classifier_run E cfg c (AI_PROVIDER cfg) (t :: ts) items
                  (mkState E (st_world s) (st_trace s) (st_log s ++ [Step2]))
                  Hi Hd) as (Hr & _ & Ht).
    destruct (get_ai_categories_batch _ _ _ _ _ _) as [[m|e0] s'];
      simpl in Hr, Ht; [|discriminate].
    simpl. split; [eauto | exact Ht].
Qed.

Lemma sendable_booked_only (all : list pyval) :
  forallb sendable all = true -> booked_only all = Ret (filter booked all).
Proof.
  induction all as [|trx all IH]; simpl; [reflexivity|].
  rewrite andb_true_iff. intros [Hr Hl]. rewrite (IH Hl).
  destruct trx; try discriminate. unfold booked. simpl.
  destruct (truthy _); reflexivity.
Qed.

Lemma sendable_payload (all : list pyval) :
  forallb sendable all = true ->
  exists items,
    input_json_list (filter booked all) = Ret items /\
    json_dumps items = Ret items.
Proof.
  induction all as [|trx all IH]; simpl.
  - intros _. exists []. auto.
  - rewrite andb_true_iff. intros [Hr Hl].
    destruct (IH Hl) as (items & Hi & Hs).
    destruct (booked trx) eqn:Hb; [|eauto].
    destruct trx; try discriminate. simpl in Hr. rewrite Hb in Hr.
    simpl in Hr. simpl. unfold request_item. simpl.
    destruct (assoc "id" d) as [i|]; [|discriminate].
    rewrite Hi. eexists. split; [reflexivity|].
    unfold json_dumps in *. simpl. rewrite Hr. simpl.
    destruct (forallb _ items); [reflexivity | discriminate].
Qed.

(** C4, as amended: for a batch of records that are dictionaries, the
    booked ones with an ['id'] that [json.dumps] accepts, the payload is
    built and holds exactly one item for each booked record, in their order,
    so as many items as there are booked records, and none for a record that
    is not booked; it is the payload of the one request that stage 2 sends
    when some record is booked, and with none booked nothing is sent. *)
Theorem payload_is_the_booked (E : Env) (cfg : config) (c : client)
  (all : list pyval) (s : state E) :
  forallb sendable all = true ->
  exists items,
    input_json_list (filter booked all) = Ret items /\
    Forall2 (fun trx it => request_item trx = Ret it) (filter booked all) items /\
    List.length items = List.length (filter booked all) /\
    exists sent,
      st_trace (snd (stage2 E cfg c all s)) = st_trace s ++ sent /\
      Forall (is_request items) sent /\
      (filter booked all = [] -> sent = []) /\
      (filter booked all <> [] -> known_provider (AI_PROVIDER cfg) = true ->
       List.length sent = 1%nat).
Proof.
  intros Hall. pose proof (sendable_booked_only all Hall) as Hb.
  destruct (sendable_payload all Hall) as (items & Hi & Hd).
  pose proof (input_json_list_items _ items Hi) as Hits.
  exists items. split; [exact Hi|]. split; [exact Hits|].
  split; [symmetry; eapply Forall2_length; eassumption|].
  destruct (stage2_run E cfg c all _ items s Hb Hi Hd) as (_ & Ht).
  rewrite Ht. eexists. split; [reflexivity|].
  destruct (filter booked all) as [|t ts']; [repeat split; auto; congruence|].
  unfold backend_call, known_provider.
  destruct (String.eqb (AI_PROVIDER cfg) "openai"),
    (String.eqb (AI_PROVIDER cfg) "deepseek"),
    (String.eqb (AI_PROVIDER cfg) "anthropic"); simpl;
    (split; [repeat constructor; try (eexists _, _, _; split; reflexivity)|]);
    (split; [discriminate | auto; try discriminate]).
Qed.

Lemma payload_is_the_booked_witness :
  let all := [transaction 1 "Grocery Store" "weekly shop" true;
              transaction 2 "Landlord" "rent" false;
              transaction 3 "Vet Clinic" "checkup" true] in
  exists items sent,
    input_json_list (filter booked all) = Ret items /\
    List.length items = 2%nat /\
    st_trace (snd (stage2 three_env source_config (OpenAI None None) all
                     (mkState three_env 1%nat [] []))) = sent /\
    Forall (is_request items) sent.
Proof.
  intros all.
  destruct (payload_is_the_booked three_env source_config (OpenAI None None)
              all (mkState three_env 1%nat [] []) eq_refl)
    as (items & Hi & _ & Hlen & sent & Ht & Hreq & _).
  exists items, sent. split; [exact Hi|]. split; [exact Hlen|].
  split; [exact Ht | exact Hreq].
Defined.

(** C4, as stated, fails: the one record of the batch is booked and has no
    ['id']; line 65 raises [KeyError] before the [try] of the classifier and
    nothing is sent, where the claim has a payload of one item. *)
Lemma booked_record_without_id_sends_nothing :
  let all := [PDict [("name", PStr "Vet Clinic"); ("booked", PBool true)]] in
  List.length (filter booked all) = 1%nat /\
  stage2 three_env source_config (OpenAI None None) all
    (mkState three_env 1%nat [] []) =
  (Raise (KeyError "id"),
   mkState three_env 1%nat [] [Step2; Formatting "deepseek"]).
Proof. split; reflexivity. Qed.

(** ** The exporter *)

Lemma export_run (E : Env) (cfg : config) (uuid : string) (s : state E) (d : Z) :
  date_sub_days (today E) (DAYS_TO_EXPORT cfg) = Ret d ->
  export_transactions_from_moneymoney E cfg uuid s =
  let script := export_script uuid d in
  let pw := osascript E script (st_world s) in
  (Ret (fst (export_verdict E (fst pw))),
   mkState E (snd pw) (st_trace s ++ [Popen script])
     (st_log s ++ [Step1 uuid (DAYS_TO_EXPORT cfg);
                   snd (export_verdict E (fst pw))])).
Proof.
  intros Hd. unfold export_transactions_from_moneymoney, export_verdict.
  run. rewrite Hd. simpl.
  destruct (osascript E (export_script uuid d) (st_world s)) as [p w']. simpl.
  destruct (returncode p =? 0); simpl.
  - destruct (stdout p) as [|b bs]; simpl.
    + now rewrite <- app_assoc.
    + destruct (plistlib_loads E (b :: bs)); simpl; now rewrite <- app_assoc.
  - now rewrite <- app_assoc.
Qed.

Lemma date_sub_days_in_range (d n : Z) :
  valid_date d -> 0 <= n -> n < d -> date_sub_days d n = Ret (d - n).
Proof.
  unfold valid_date, date_sub_days, _MAXORDINAL. intros [H1 H2] H3 H4.
  replace (999999999 <? Z.abs n) with false by (symmetry; apply Z.ltb_ge; lia).
  replace (0 <? d - n) with true by (symmetry; apply Z.ltb_lt; lia).
  replace (d - n <=? 3652059) with true by (symmetry; apply Z.leb_le; lia).
  reflexivity.
Qed.

(** C5, as amended: for every lookback window W that is not negative and
    does not reach back before the first day of the calendar, the exporter
    runs one export script, and the start date in it is today minus W days;
    for W = 0 it is today. *)
Theorem start_date_is_today_minus_window (E : Env) (cfg : config)
  (uuid : string) (s : state E) :
  valid_date (today E) ->
  0 <= DAYS_TO_EXPORT cfg ->
  DAYS_TO_EXPORT cfg < today E ->
  let from_date := today E - DAYS_TO_EXPORT cfg in
  st_trace (snd (export_transactions_from_moneymoney E cfg uuid s)) =
    st_trace s ++ [Popen (export_script uuid from_date)] /\
  In (Ymd from_date) (export_script uuid from_date) /\
  (DAYS_TO_EXPORT cfg = 0 -> from_date = today E).
Proof.
  intros Hv H0 Hlt from_date.
  rewrite (export_run E cfg uuid s from_date)
    by (apply date_sub_days_in_range; assumption).
  split; [reflexivity|]. split.
  - simpl. do 10 right. left. reflexivity.
  - unfold from_date. lia.
Qed.

Lemma start_date_is_today_minus_window_witness :
  st_trace (snd (export_transactions_from_moneymoney failing_env source_config
                   "a2fea395-d50a-41f9-913a-4a73dec89e72"
                   (start failing_env 0%nat))) =
  [Popen (export_script "a2fea395-d50a-41f9-913a-4a73dec89e72" (739924 - 20))].
Proof.
  assert (Hv : valid_date (today failing_env))
    by (unfold valid_date, _MAXORDINAL; simpl; unfold a_day; lia).
  assert (H0 : 0 <= DAYS_TO_EXPORT source_config) by (simpl; lia).
  assert (Hlt : DAYS_TO_EXPORT source_config < today failing_env)
    by (simpl; unfold a_day; lia).
  exact (proj1 (start_date_is_today_minus_window failing_env source_config
                  "a2fea395-d50a-41f9-913a-4a73dec89e72"
                  (start failing_env 0%nat) Hv H0 Hlt)).
Defined.

(** C5, as stated, fails: a window of a million days reaches back before
    the year 1; the subtraction raises [OverflowError], outside every [try],
    and no export script, so no start date, is passed on. *)
Lemma start_date_overflow :
  0 <= DAYS_TO_EXPORT long_window /\
  export_transactions_from_moneymoney failing_env long_window
    "a2fea395-d50a-41f9-913a-4a73dec89e72" (start failing_env 0%nat) =
  (Raise OverflowError,
   mkState failing_env 0%nat []
     [Step1 "a2fea395-d50a-41f9-913a-4a73dec89e72" 1000000]).
Proof. split; [simpl; lia | reflexivity]. Qed.



(** The export call succeeds and prints nothing: the exporter prints an
    error message and returns what it returns when the call fails. *)
Example no_data_returned_like_a_failure :
  let silent :=
    export_transactions_from_moneymoney silent_env source_config
      "a2fea395-d50a-41f9-913a-4a73dec89e72" (start silent_env 0%nat) in
  let failed :=
    export_transactions_from_moneymoney failing_env source_config
      "a2fea395-d50a-41f9-913a-4a73dec89e72" (start failing_env 0%nat) in
  fst silent = fst failed /\
  In ExportNoData (st_log (snd silent)) /\
  is_error ExportNoData = true.
Proof.
  vm_compute. split; [reflexivity|]. split; [|reflexivity].
  right. left. reflexivity.
Qed.

(** C9: when the export call succeeds and its payload parses to an empty
    collection, the exporter returns that collection, which holds no
    transaction, and prints no error message, only its line of success; and
    what it returns differs from what it returns for any call that exits
    with a non-zero status, which is [None]. *)
Theorem empty_collection_is_no_failure (E : Env) (cfg : config)
  (uuid : string) (s : state E) (d : Z) (v : pyval) :
  date_sub_days (today E) (DAYS_TO_EXPORT cfg) = Ret d ->
  let p := fst (osascript E (export_script uuid d) (st_world s)) in
  returncode p = 0 ->
  stdout p <> [] ->
  plistlib_loads E (stdout p) = Ret v ->
  empty_collection v ->
  let r := export_transactions_from_moneymoney E cfg uuid s in
  fst r = Ret (Some v) /\
  st_log (snd r) = st_log s ++ [Step1 uuid (DAYS_TO_EXPORT cfg); ExportOk] /\
  Forall (fun l => is_error l = false)
    [Step1 uuid (DAYS_TO_EXPORT cfg); ExportOk] /\
  forall (E' : Env) (cfg' : config) (uuid' : string) (s' : state E') (d' : Z),
    date_sub_days (today E') (DAYS_TO_EXPORT cfg') = Ret d' ->
    returncode (fst (osascript E' (export_script uuid' d') (st_world s'))) <> 0 ->
    fst (export_transactions_from_moneymoney E' cfg' uuid' s') = Ret None /\
    fst (export_transactions_from_moneymoney E' cfg' uuid' s') <> fst r.
Proof.
  intros Hd p Hrc Hout Hv _ r.
  assert (Hr : fst r = Ret (Some v) /\
               st_log (snd r) =
               st_log s ++ [Step1 uuid (DAYS_TO_EXPORT cfg); ExportOk]).
  { unfold r. rewrite (export_run E cfg uuid s d Hd). cbv zeta. fold p.
    unfold export_verdict. rewrite Hrc. simpl.
    destruct (stdout p) as [|b bs] eqn:Hs; [congruence|].
    rewrite Hv. simpl. auto. }
  destruct Hr as [Hfst Hlog]. split; [exact Hfst|]. split; [exact Hlog|].
  split; [repeat constructor|].
  intros E' cfg' uuid' s' d' Hd' Hrc'.
  assert (Hnone : fst (export_transactions_from_moneymoney E' cfg' uuid' s') =
                  Ret None).
  { rewrite (export_run E' cfg' uuid' s' d' Hd'). cbv zeta.
    unfold export_verdict. apply Z.eqb_neq in Hrc'. rewrite Hrc'. reflexivity. }
  split; [exact Hnone|]. rewrite Hnone, Hfst. discriminate.
Qed.

Lemma empty_collection_is_no_failure_witness :
  fst (export_transactions_from_moneymoney vacant_env source_config
         "a2fea395-d50a-41f9-913a-4a73dec89e72" (start vacant_env 0%nat)) =
    Ret (Some (PDict [("creator", PStr "MoneyMoney"); ("transactions", PList [])])) /\
  fst (export_transactions_from_moneymoney failing_env source_config
         "a2fea395-d50a-41f9-913a-4a73dec89e72" (start failing_env 0%nat)) =
    Ret None.
Proof.
  destruct (empty_collection_is_no_failure vacant_env source_config
              "a2fea395-d50a-41f9-913a-4a73dec89e72" (start vacant_env 0%nat)
              (739924 - 20)
              (PDict [("creator", PStr "MoneyMoney"); ("transactions", PList [])])
              eq_refl eq_refl)
    as (Hfst & _ & _ & Hfail); [discriminate | reflexivity | reflexivity |].
  split; [exact Hfst|].
  refine (proj1 (Hfail failing_env source_config
                   "a2fea395-d50a-41f9-913a-4a73dec89e72"
                   (start failing_env 0%nat) (739924 - 20) eq_refl _)).
  simpl. lia.
Defined.

(** ** The script from its first line *)

Lemma no_key_missing (E : Env) (variable : string) :
  getenv E variable = None \/ getenv E variable = Some EmptyString ->
  no_key E variable = true.
Proof. unfold no_key. intros [->| ->]; reflexivity. Qed.

(** C7: with an unknown provider, or with the key variable of the chosen
    provider missing, the script prints one error message and exits with
    status 1, which is not zero, having called neither the finance
    application nor the backend: the trace is empty and the world is as it
    was. *)
Theorem configuration_error_exits_first (E : Env) (cfg : config) (w : world E) :
  configuration_error E cfg ->
  exists l,
    main E cfg w = (Exited 1, mkState E w [] [l]) /\
    is_error l = true /\ 1 <> 0.
Proof.
  unfold configuration_error, key_variable, main, init_client.
  destruct (String.eqb (AI_PROVIDER cfg) "openai");
    [|destruct (String.eqb (AI_PROVIDER cfg) "anthropic");
      [|destruct (String.eqb (AI_PROVIDER cfg) "deepseek")]];
    intros H; try (rewrite (no_key_missing E _ H));
    eexists; (split; [reflexivity|]); (split; [reflexivity | lia]).
Qed.

Lemma configuration_error_exits_first_witness :
  exists l,
    main keyless_env source_config 0%nat =
      (Exited 1, mkState keyless_env 0%nat [] [l]).
Proof.
  destruct (configuration_error_exits_first keyless_env source_config 0%nat
              (or_introl eq_refl)) as (l & Hl & _).
  exists l. exact Hl.
Defined.

Lemma export_fails_verdict (E : Env) (p : proc) :
  export_fails E p ->
  fst (export_verdict E p) = None /\ is_error (snd (export_verdict E p)) = true.
Proof.
  unfold export_fails, export_verdict. intros [H|[H|[e H]]].
  - apply Z.eqb_neq in H. rewrite H. auto.
  - rewrite H. destruct (returncode p =? 0); auto.
  - rewrite H. destruct (returncode p =? 0); simpl; auto.
    destruct (stdout p); auto.
Qed.

(** C1, as amended: when the configuration is accepted and the export
    fails, stages 2 and 3 do not run: the export call is the only call made,
    no request to the backend and no update; the run ends in the normal way,
    and the error message of the exporter is the last line printed, with no
    final summary after it. *)
Theorem export_failure_ends_the_run (E : Env) (cfg : config) (w : world E)
  (c : client) (d : Z) :
  init_client E cfg = inr c ->
  date_sub_days (today E) (DAYS_TO_EXPORT cfg) = Ret d ->
  let script := export_script (UNCATGEGORIZED_CATEGORY_UUID cfg) d in
  export_fails E (fst (osascript E script w)) ->
  exists l,
    main E cfg w =
      (Finished,
       mkState E (snd (osascript E script w)) [Popen script]
         [Step1 (UNCATGEGORIZED_CATEGORY_UUID cfg) (DAYS_TO_EXPORT cfg); l]) /\
    is_error l = true /\
    Forall (fun x => is_summary x = false) (st_log (snd (main E cfg w))).
Proof.
  intros Hc Hd script Hf.
  destruct (export_fails_verdict E _ Hf) as [Hnone Herr].
  assert (Hmain : main E cfg w =
      (Finished,
       mkState E (snd (osascript E script w)) [Popen script]
         [Step1 (UNCATGEGORIZED_CATEGORY_UUID cfg) (DAYS_TO_EXPORT cfg);
          snd (export_verdict E (fst (osascript E script w)))])).
  { unfold main. rewrite Hc. unfold pipeline, bind.
    rewrite (export_run E cfg _ (start E w) d Hd). cbv zeta.
    simpl st_world. fold script. rewrite Hnone. reflexivity. }
  eexists. split; [exact Hmain|]. split; [exact Herr|].
  rewrite Hmain. simpl. repeat constructor.
  destruct (snd (export_verdict E (fst (osascript E script w))));
    try reflexivity; discriminate.
Qed.

Lemma export_failure_ends_the_run_witness :
  exists l,
    main failing_env source_config 0%nat =
      (Finished,
       mkState failing_env 1%nat
         [Popen (export_script "a2fea395-d50a-41f9-913a-4a73dec89e72" 739904)]
         [Step1 "a2fea395-d50a-41f9-913a-4a73dec89e72" 20; l]).
Proof.
  destruct (export_failure_ends_the_run failing_env source_config 0%nat
              (OpenAI (Some "sk-test") (Some "https://api.deepseek.com/v1"))
              739904 eq_refl eq_refl)
    as (l & Hl & _).
  - left. simpl. lia.
  - exists l. exact Hl.
Defined.

(** C1, as stated, fails: the export call exits with status 1; the run
    ends in the normal way with no call after it, and nothing is printed
    after the error message: no line reports 0 exported or 0 updated. *)
Lemma no_summary_after_export_failure :
  let r := main failing_env source_config 0%nat in
  fst r = Finished /\
  st_log (snd r) =
    [Step1 "a2fea395-d50a-41f9-913a-4a73dec89e72" 20;
     ExportFailed "MoneyMoney got an error"] /\
  ~ In (SummaryExported 0) (st_log (snd r)) /\
  ~ In (SummaryUpdated 0) (st_log (snd r)).
Proof.
  vm_compute. split; [reflexivity|]. split; [reflexivity|].
  split; intros [H|[H|[]]]; discriminate.
Qed.

(** ** Runs over well-formed records *)

Lemma report_ok (E : Env) (l : list pyval) (s : state E) :
  forallb record_ok l = true ->
  exists lg,
    for_each E l (report_line E) s =
    (Ret tt, mkState E (st_world s) (st_trace s) lg).
Proof.
  revert s; induction l as [|trx l IH]; intros s; simpl.
  - intros _. exists (st_log s). destruct s. reflexivity.
  - rewrite andb_true_iff. intros [Hr Hl].
    destruct trx; try discriminate. simpl in Hr.
    rewrite !andb_true_iff in Hr. destruct Hr as [[Hdate Hamount] _].
    unfold bind at 1. unfold report_line at 1. run.
    destruct (assoc "bookingDate" d) as [[]|]; try discriminate; simpl;
      (destruct (assoc "amount" d) as [a|]; simpl;
       [destruct (format_2f a); [simpl|discriminate]|]);
      match goal with
      | |- context [for_each E l (report_line E) ?s'] =>
          destruct (IH s' Hl) as [lg Hlg]; rewrite Hlg; eauto
      end.
Qed.

Lemma booked_only_ok (l : list pyval) :
  forallb record_ok l = true -> booked_only l = Ret (filter booked l).
Proof.
  induction l as [|trx l IH]; simpl; [reflexivity|].
  rewrite andb_true_iff. intros [Hr Hl]. rewrite (IH Hl).
  destruct trx; try discriminate. unfold booked. simpl.
  destruct (truthy _); reflexivity.
Qed.

Lemma json_dumps_ok (items : list (pyval * fstring)) :
  forallb (fun it => json_serializable (fst it)) items = true ->
  json_dumps items = Ret items.
Proof. unfold json_dumps. now intros ->. Qed.

Lemma payload_ok (l : list pyval) :
  forallb record_ok l = true ->
  exists items,
    input_json_list (filter booked l) = Ret items /\
    forallb (fun it => json_serializable (fst it)) items = true.
Proof.
  induction l as [|trx l IH]; simpl.
  - intros _. exists []. auto.
  - rewrite andb_true_iff. intros [Hr Hl].
    destruct (IH Hl) as (items & Hi & Hs).
    destruct (booked trx) eqn:Hb; [|eauto].
    destruct trx; try discriminate. simpl in Hr. rewrite Hb in Hr.
    rewrite !andb_true_iff in Hr. destruct Hr as [_ Hid]. simpl in Hid.
    simpl. unfold request_item. simpl.
    destruct (assoc "id" d) as [i|]; [|discriminate].
    rewrite Hi. eexists. split; [reflexivity|]. simpl. now rewrite Hid.
Qed.



(** * Further properties of the three stages *)

(** ** The payload loop *)

Lemma input_json_list_raise (ts : list pyval) (trx : pyval) (e : exn) :
  In trx ts -> request_item trx = Raise e ->
  exists e', input_json_list ts = Raise e'.
Proof.
  induction ts as [|t ts IH]; simpl; [intros []|].
  intros [->|Hin] He.
  - rewrite He. eauto.
  - destruct (request_item t); [|eauto].
    destruct (IH Hin He) as [e' ->]. eauto.
Qed.

Lemma unsendable_payload (ts : list pyval) (trx : pyval) :
  In trx ts -> unsendable trx ->
  (exists e, input_json_list ts = Raise e) \/
  (exists items, input_json_list ts = Ret items /\ json_dumps items = Raise TypeError).
Proof.
  intros Hin Hbad.
  destruct (input_json_list ts) as [items|e] eqn:Hi; [|eauto].
  right. exists items. split; [reflexivity|].
  apply input_json_list_items in Hi.
  assert (Hex : exists it, In it items /\ request_item trx = Ret it).
  { clear Hbad. induction Hi as [|t it ts' items' Ht _ IH]; [destruct Hin|].
    destruct Hin as [->|Hin]; [exists it; simpl; auto|].
    destruct (IH Hin) as (it' & ? & ?). exists it'. simpl. auto. }
  destruct Hex as (it & Hit & Hreq).
  unfold json_dumps.
  replace (forallb (fun it0 => json_serializable (fst it0)) items) with false;
    [reflexivity|].
  symmetry. apply not_true_is_false. intros Hall.
  rewrite forallb_forall in Hall. specialize (Hall it Hit).
  destruct trx; simpl in Hreq; try discriminate.
  unfold request_item in Hreq. simpl in Hreq, Hbad.
  destruct (assoc "id" d) as [i|]; [|discriminate].
  injection Hreq as <-. simpl in Hall. congruence.
Qed.

(** X1: one record from which no item can be made stops the whole batch:
    the classifier raises before its [try], having printed its first line
    only and called no backend, and returns no mapping, whatever the other
    records are. *)
Theorem one_unsendable_record_stops_the_batch (E : Env) (cfg : config)
  (c : client) (provider : string) (ts : list pyval) (trx : pyval)
  (s : state E) :
  In trx ts -> unsendable trx ->
  exists e,
    get_ai_categories_batch E cfg c provider ts s =
    (Raise e,
     mkState E (st_world s) (st_trace s) (st_log s ++ [Formatting provider])).
Proof.
  intros Hin Hbad. unfold get_ai_categories_batch. run.
  destruct (unsendable_payload ts trx Hin Hbad) as [[e ->]|(items & -> & Hd)].
  - eauto.
  - simpl. rewrite Hd. eauto.
Qed.

Lemma one_unsendable_record_stops_the_batch_witness :
  exists e,
    fst (get_ai_categories_batch three_env source_config (OpenAI None None)
           "deepseek"
           [transaction 1 "Vet Clinic" "checkup" true;
            PDict [("name", PStr "Landlord"); ("booked", PBool true)]]
           (mkState three_env 1%nat [] [])) = Raise e.
Proof.
  destruct (one_unsendable_record_stops_the_batch three_env source_config
              (OpenAI None None) "deepseek"
              [transaction 1 "Vet Clinic" "checkup" true;
               PDict [("name", PStr "Landlord"); ("booked", PBool true)]]
              (PDict [("name", PStr "Landlord"); ("booked", PBool true)])
              (mkState three_env 1%nat [] [])
              (or_intror (or_introl eq_refl)) I) as [e He].
  exists e. rewrite He. reflexivity.
Defined.

(** ** The order of the mapping *)

Lemma keys_of_dict_set (d : pydict) (k v : pyval) :
  map fst (dict_set d k v) =
  if existsb (fun x => py_eq x k) (map fst d)
  then map fst d else map fst d ++ [k].
Proof.
  induction d as [|[k' v'] d IH]; simpl; [reflexivity|].
  destruct (py_eq k' k); simpl; [reflexivity|].
  rewrite IH. destruct (existsb _ (map fst d)); reflexivity.
Qed.

Lemma keys_of_fold (es : list (pyval * pyval)) (acc : pydict) :
  map fst (fold_left store es acc) =
  map fst acc ++ first_occurrences (map fst acc) (map fst es).
Proof.
  revert acc; induction es as [|[k v] es IH]; intros acc; simpl.
  - now rewrite app_nil_r.
  - rewrite IH. unfold store. simpl. rewrite keys_of_dict_set.
    destruct (existsb _ (map fst acc)); [reflexivity|].
    now rewrite <- app_assoc.
Qed.

Lemma first_occurrences_length (seen ids : list pyval) :
  (List.length (first_occurrences seen ids) <= List.length ids)%nat.
Proof.
  revert seen; induction ids as [|k ids IH]; intros seen; simpl; [lia|].
  destruct (existsb _ seen); simpl.
  - specialize (IH seen). lia.
  - specialize (IH (seen ++ [k])). lia.
Qed.

(** X2: the keys of the mapping stand in the order in which the
    identifiers first occur in the backend's answer, each spelled as at that
    first occurrence, so the mapping never has more entries than the answer
    has. *)
Theorem mapping_keeps_first_occurrences (response : pyval)
  (es : list (pyval * pyval)) :
  response_entries response = Ret es ->
  exists m,
    id_to_category_map response = Ret m /\
    map fst m = first_occurrences [] (map fst es) /\
    (List.length m <= List.length es)%nat.
Proof.
  intros H. exists (fold_left store es []).
  assert (Hk : map fst (fold_left store es []) =
               first_occurrences [] (map fst es)) by apply keys_of_fold.
  split; [rewrite id_to_category_map_entries, H; reflexivity|].
  split; [exact Hk|].
  rewrite <- (length_map fst), Hk, <- (length_map fst es).
  apply first_occurrences_length.
Qed.

Lemma mapping_keeps_first_occurrences_witness :
  exists m,
    id_to_category_map
      (results [result 1 "Pets"; result 2 "Real Estate"; result 1 "Shopping"])
      = Ret m /\
    map fst m = [PInt 1; PInt 2].
Proof.
  destruct (mapping_keeps_first_occurrences
              (results [result 1 "Pets"; result 2 "Real Estate"; result 1 "Shopping"])
              [(PInt 1, PStr "Pets"); (PInt 2, PStr "Real Estate");
               (PInt 1, PStr "Shopping")] eq_refl)
    as (m & Hm & Hk & _).
  exists m. split; [exact Hm | exact Hk].
Defined.

(** ** What the writer reports *)

Lemma replies_length (E : Env) (scripts : list fstring) (w : world E) :
  List.length (fst (replies E scripts w)) = List.length scripts.
Proof.
  revert w; induction scripts as [|sc scripts IH]; intros w; simpl; [reflexivity|].
  destruct (osascript E sc w) as [p w']. specialize (IH w').
  destruct (replies E scripts w') as [ps w'']. simpl in *. now rewrite IH.
Qed.

Lemma failures_refused (m : pydict) (ps : list proc) :
  List.length ps = List.length m ->
  List.length (failures m ps) = List.length (refused ps) /\
  Forall (fun l => exists k err, l = UpdateFailed k err) (failures m ps).
Proof.
  revert ps; induction m as [|kv m IH]; intros [|p ps]; simpl; try discriminate.
  - intros _. split; [reflexivity | constructor].
  - intros [= Hlen]. destruct (IH ps Hlen) as [Hl Hf].
    unfold failures, refused in *. simpl.
    destruct (returncode p =? 0); simpl; [auto|].
    split; [now rewrite Hl|]. constructor; eauto.
Qed.

(** X3: for a mapping that is not empty and whose update calls all come to
    an end, the writer's stage prints one failure message for each call that
    exited non-zero, no more and no fewer, and then its line of success in
    every case, also when every call was refused. *)
Theorem success_line_after_any_failures (E : Env) (m : pydict) (s : state E) :
  m <> [] ->
  completes E (update_scripts m) (st_world s) ->
  let ps := fst (replies E (update_scripts m) (st_world s)) in
  exists lg,
    st_log (snd (stage3 E m s)) =
      st_log s ++ Step3 (len m) :: lg ++ [AllUpdated] /\
    List.length lg = List.length (refused ps) /\
    Forall (fun l => exists k err, l = UpdateFailed k err) lg.
Proof.
  intros Hm Hc ps. rewrite (stage3_eq E m s Hc). cbn [snd st_log]. fold ps.
  destruct m as [|kv m]; [congruence|].
  assert (Hlen : List.length ps = List.length (kv :: m)).
  { unfold ps. rewrite replies_length. unfold update_scripts.
    apply length_map. }
  destruct (failures_refused (kv :: m) ps Hlen) as [Hl Hf].
  exists (failures (kv :: m) ps). auto.
Qed.

Lemma success_line_after_any_failures_witness :
  exists lg,
    st_log (snd (stage3 locked_env [(PInt 1, PStr "Pets"); (PInt 2, PStr "Tax")]
                   (mkState locked_env 1%nat [] []))) =
      Step3 2 :: lg ++ [AllUpdated] /\
    List.length lg = 2%nat.
Proof.
  destruct (success_line_after_any_failures locked_env
              [(PInt 1, PStr "Pets"); (PInt 2, PStr "Tax")]
              (mkState locked_env 1%nat [] []))
    as (lg & Hlog & Hlen & _); [discriminate | simpl; auto |].
  exists lg. split; [exact Hlog | exact Hlen].
Defined.

(** ** What the classifier reports *)

Lemma classifier_log (E : Env) (cfg : config) (c : client) (provider : string)
  (ts : list pyval) (items : list (pyval * fstring)) (s : state E) :
  input_json_list ts = Ret items ->
  json_dumps items = Ret items ->
  st_log (snd (get_ai_categories_batch E cfg c provider ts s)) =
  st_log s ++
  [Formatting provider; SystemPrompt (system_prompt cfg); Sending provider] ++
  closing_lines E (backend_reply E cfg c provider items (st_world s)).
Proof.
  intros Hi Hd.
  unfold get_ai_categories_batch, backend_reply, backend_call, closing_lines.
  run. rewrite Hi; simpl. rewrite Hd; simpl.
  destruct (String.eqb provider "openai" || String.eqb provider "deepseek");
    [|destruct (String.eqb provider "anthropic")]; simpl.
  - destruct (ai_backend E c _ _ _) as [[content|e] w']; simpl;
      [|now rewrite <- !app_assoc].
    destruct (loads_content E content) as [v|e]; simpl;
      [|now rewrite <- !app_assoc].
    destruct (id_to_category_map v); simpl; now rewrite <- !app_assoc.
  - destruct (ai_backend E c _ _ _) as [[content|e] w']; simpl;
      [|now rewrite <- !app_assoc].
    destruct (loads_content E content) as [v|e]; simpl;
      [|now rewrite <- !app_assoc].
    destruct (id_to_category_map v); simpl; now rewrite <- !app_assoc.
  - destruct (json_loads E EmptyString) as [v|e]; simpl;
      [|now rewrite <- !app_assoc].
    destruct (id_to_category_map v); simpl; now rewrite <- !app_assoc.
Qed.

(** X4: once the payload is built the classifier prints its three opening
    lines and then: after an exception of the backend, the error line alone;
    after an answer, the line of success first and, only when the parsing or
    the reading of the entries raises, the error line after it.  An answer
    that is an object without the results field raises nothing: the mapping
    is empty and no error line is printed. *)
Theorem classifier_lines (E : Env) (cfg : config) (c : client)
  (provider : string) (ts : list pyval) (items : list (pyval * fstring))
  (s : state E) :
  input_json_list ts = Ret items ->
  json_dumps items = Ret items ->
  let r := get_ai_categories_batch E cfg c provider ts s in
  let reply := backend_reply E cfg c provider items (st_world s) in
  st_log (snd r) =
    st_log s ++
    [Formatting provider; SystemPrompt (system_prompt cfg); Sending provider] ++
    closing_lines E reply /\
  (forall e, reply = Raise e -> closing_lines E reply = [AIError e]) /\
  (forall content d,
     reply = Ret content -> loads_content E content = Ret (PDict d) ->
     assoc "categorized_transactions" d = None ->
     fst r = Ret [] /\ closing_lines E reply = [AICallOk]).
Proof.
  intros Hi Hd r reply. split; [apply classifier_log; assumption|]. split.
  - intros e ->. reflexivity.
  - intros content d Hr Hl Hnone.
    destruct (classifier_run E cfg c provider ts items s Hi Hd) as (Hf & _ & _).
    fold r in Hf. rewrite Hf. unfold closing_lines. rewrite Hr, Hl.
    assert (Hm : id_to_category_map (PDict d) = Ret []).
    { unfold id_to_category_map. simpl. rewrite Hnone. reflexivity. }
    rewrite Hm. split; [|reflexivity].
    f_equal. unfold backend_answer. unfold reply, backend_reply in Hr.
    destruct (backend_call cfg provider items) as [[a rq]|].
    + destruct (ai_backend E c a rq (st_world s)) as [o w']. simpl in *.
      subst o. rewrite Hl. simpl. now rewrite Hm.
    + injection Hr as <-. cbn [fst]. rewrite Hl. unfold mapping_of.
      now rewrite Hm.
Qed.

Lemma classifier_lines_witness :
  fst (get_ai_categories_batch fieldless_env source_config (OpenAI None None)
         "deepseek" [transaction 1 "Vet Clinic" "checkup" true]
         (mkState fieldless_env 1%nat [] [])) = Ret [].
Proof.
  exact (proj1 (proj2 (proj2
           (classifier_lines fieldless_env source_config (OpenAI None None)
              "deepseek" [transaction 1 "Vet Clinic" "checkup" true]
              [(PInt 1, [Str (PStr "Vet Clinic"); Lit " - "; Str (PStr "checkup")])]
              (mkState fieldless_env 1%nat [] []) eq_refl eq_refl))
           (Some "{...}") [("note", PStr "nothing to report")]
           eq_refl eq_refl eq_refl)).
Defined.

(** ** The client and the call made with it *)

(** X5: the client that the start of the script builds and the call that
    the classifier makes for the same provider fit: an Anthropic client is
    used with the messages interface and the Claude model, an OpenAI client
    with the chat interface, the model being gpt-4o for the client of the
    default endpoint and deepseek-chat for the client of the DeepSeek
    endpoint; and with an accepted configuration a call is always made. *)
Theorem client_fits_the_call (E : Env) (cfg : config) (c : client)
  (items : list (pyval * fstring)) :
  init_client E cfg = inr c ->
  exists a rq,
    backend_call cfg (AI_PROVIDER cfg) items = Some (a, rq) /\
    rq_items rq = items /\
    match c with
    | Anthropic =>
        a = messages_create /\ rq_model rq = "claude-3-sonnet-20240229"
    | OpenAI _ None =>
        a = chat_completions_create /\ rq_model rq = "gpt-4o"
    | OpenAI _ (Some url) =>
        a = chat_completions_create /\ rq_model rq = "deepseek-chat" /\
        url = "https://api.deepseek.com/v1"
    end.
Proof.
  unfold init_client, backend_call, chat_request, messages_request.
  destruct (String.eqb (AI_PROVIDER cfg) "openai") eqn:Ho.
  - destruct (no_key E "OPENAI_API_KEY"); [discriminate|].
    intros [= <-]. simpl. eauto 10.
  - destruct (String.eqb (AI_PROVIDER cfg) "anthropic") eqn:Ha.
    + destruct (no_key E "ANTHROPIC_API_KEY"); [discriminate|].
      intros [= <-]. apply String.eqb_eq in Ha. rewrite Ha. simpl. eauto 10.
    + destruct (String.eqb (AI_PROVIDER cfg) "deepseek") eqn:Hk; [|discriminate].
      destruct (no_key E "DEEPSEEK_API_KEY"); [discriminate|].
      intros [= <-]. simpl. eauto 10.
Qed.

Lemma client_fits_the_call_witness :
  exists a rq,
    backend_call source_config (AI_PROVIDER source_config) [] = Some (a, rq) /\
    a = chat_completions_create.
Proof.
  destruct (client_fits_the_call three_env source_config
              (OpenAI (Some "sk-test") (Some "https://api.deepseek.com/v1")) []
              eq_refl) as (a & rq & Hc & _ & Ha & _).
  exists a, rq. split; [exact Hc | exact Ha].
Defined.

(** ** The whole run *)

Lemma state_eta (E : Env) (A : Type) (r : outcome A * state E) :
  r = (fst r, mkState E (st_world (snd r)) (st_trace (snd r)) (st_log (snd r))).
Proof. destruct r as [o [w t l]]. reflexivity. Qed.

Lemma classifier_eq (E : Env) (cfg : config) (c : client) (provider : string)
  (ts : list pyval) (items : list (pyval * fstring)) (s : state E) :
  input_json_list ts = Ret items ->
  json_dumps items = Ret items ->
  get_ai_categories_batch E cfg c provider ts s =
  (Ret (mapping_of (fst (backend_answer E cfg c provider items (st_world s)))),
   mkState E (snd (backend_answer E cfg c provider items (st_world s)))
     (st_trace s ++
      match backend_call cfg provider items with
      | Some (a, rq) => [AICall c a rq]
      | None => []
      end)
     (st_log s ++
      [Formatting provider; SystemPrompt (system_prompt cfg); Sending provider] ++
      closing_lines E (backend_reply E cfg c provider items (st_world s)))).
Proof.
  intros Hi Hd.
  rewrite (state_eta E _ (get_ai_categories_batch E cfg c provider ts s)).
  destruct (classifier_run E cfg c provider ts items s Hi Hd) as (-> & -> & ->).
  rewrite (classifier_log E cfg c provider ts items s Hi Hd). reflexivity.
Qed.

Lemma stage2_eq (E : Env) (cfg : config) (c : client) (all ts : list pyval)
  (items : list (pyval * fstring)) (s : state E) :
  booked_only all = Ret ts ->
  input_json_list ts = Ret items ->
  json_dumps items = Ret items ->
  exists w',
    stage2 E cfg c all s =
    (Ret (stage2_mapping E cfg c ts items (st_world s)),
     mkState E w' (st_trace s ++ stage2_events cfg c ts items)
       (st_log s ++ stage2_lines E cfg c ts items (st_world s))).
Proof.
  intros Hb Hi Hd. unfold stage2. run. rewrite Hb.
  unfold stage2_mapping, stage2_events, stage2_lines.
  destruct ts as [|t ts].
  - simpl. rewrite ?app_nil_r, <- ?app_assoc. eauto.
  - rewrite (classifier_eq E cfg c (AI_PROVIDER cfg) (t :: ts) items _ Hi Hd).
    simpl. eexists. f_equal. f_equal.
    repeat (rewrite <- app_assoc; simpl). reflexivity.
Qed.

Lemma report_lines (E : Env) (l : list pyval) (s : state E) :
  forallb record_ok l = true ->
  exists lg,
    for_each E l (report_line E) s =
    (Ret tt, mkState E (st_world s) (st_trace s) (st_log s ++ lg)) /\
    List.length lg = List.length l /\ Forall is_report_line lg.
Proof.
  revert s; induction l as [|trx l IH]; intros s; simpl.
  - intros _. exists []. rewrite app_nil_r. destruct s. repeat split; constructor.
  - rewrite andb_true_iff. intros [Hr Hl].
    destruct trx; try discriminate. simpl in Hr.
    rewrite !andb_true_iff in Hr. destruct Hr as [[Hdate Hamount] _].
    unfold bind at 1. unfold report_line at 1. run.
    destruct (assoc "bookingDate" d) as [[]|]; try discriminate; simpl;
      (destruct (assoc "amount" d) as [a|]; simpl;
       [destruct (format_2f a); [simpl|discriminate]|]);
      match goal with
      | |- context [for_each E l (report_line E) ?s'] =>
          destruct (IH s' Hl) as (lg & Hlg & Hlen & Hall); rewrite Hlg;
          simpl; rewrite <- app_assoc; simpl;
          eexists (_ :: lg); split; [reflexivity|];
          split; [simpl; now rewrite Hlen|];
          constructor; [unfold is_report_line; eauto 10 | exact Hall]
      end.
Qed.


Lemma records_eq (E : Env) (cfg : config) (c : client) (l : list pyval)
  (s : state E) (found : Z) :
  forallb record_ok l = true ->
  (forall items w',
     input_json_list (filter booked l) = Ret items ->
     completes E
       (update_scripts
          (stage2_mapping E cfg c (filter booked l) items (st_world s))) w') ->
  exists items reported w',
    input_json_list (filter booked l) = Ret items /\
    json_dumps items = Ret items /\
    List.length reported = List.length l /\
    Forall is_report_line reported /\
    let m := stage2_mapping E cfg c (filter booked l) items (st_world s) in
    bind E (for_each E l (report_line E))
      (fun _ => bind E (print E ReportRule)
         (fun _ => bind E (stage2 E cfg c l)
            (fun m => bind E (stage3 E m)
               (fun _ => bind E (print E SummaryHead)
                  (fun _ => bind E (print E (SummaryExported found))
                     (fun _ => bind E (print E (SummaryUpdated (len m)))
                        (fun _ => bind E (print E SummaryRule)
                           (fun _ => print E AllDone)))))))) s =
    (Ret tt,
     mkState E (snd (replies E (update_scripts m) w'))
       (st_trace s ++ stage2_events cfg c (filter booked l) items ++
        map Run (update_scripts m))
       (st_log s ++ reported ++ [ReportRule] ++
        stage2_lines E cfg c (filter booked l) items (st_world s) ++
        Step3 (len m) ::
        match m with
        | [] => [NothingToUpdate]
        | _ :: _ => failures m (fst (replies E (update_scripts m) w')) ++ [AllUpdated]
        end ++ summary found (len m))).
Proof.
  intros Hl Hcompl. destruct (payload_ok l Hl) as (items & Hi & Hs).
  destruct (report_lines E l s Hl) as (reported & Hrep & Hlen & Hall).
  pose proof (json_dumps_ok items Hs) as Hd.
  destruct (stage2_eq E cfg c l (filter booked l) items
              (mkState E (st_world s) (st_trace s)
                 ((st_log s ++ reported) ++ [ReportRule]))
              (booked_only_ok l Hl) Hi Hd) as (w' & H2).
  exists items, reported, w'. repeat (split; [assumption|]).
  intros m. unfold bind at 1. rewrite Hrep.
  unfold bind at 1. unfold print at 1. cbn [st_world st_trace st_log].
  unfold bind at 1. rewrite H2. cbn [st_world st_trace st_log]. fold m.
  unfold bind at 1.
  match goal with
  | |- context [stage3 E m ?s2] =>
      rewrite (stage3_eq E m s2 (Hcompl items w' Hi))
  end.
  cbn [st_world st_trace st_log]. run. unfold summary.
  f_equal. f_equal.
  - now rewrite <- app_assoc.
  - unfold stage2_lines. repeat (rewrite <- app_assoc; simpl). reflexivity.
Qed.

Lemma verdict_ok (E : Env) (p : proc) (v : pyval) :
  fst (export_verdict E p) = Some v -> snd (export_verdict E p) = ExportOk.
Proof.
  unfold export_verdict. destruct (returncode p =? 0); simpl; [|discriminate].
  destruct (stdout p); [discriminate|].
  destruct (plistlib_loads E _); simpl; [reflexivity | discriminate].
Qed.

(** A run over a payload of well-formed records, in full. *)
Lemma well_formed_run (E : Env) (cfg : config) (w : world E) (c : client)
  (d : Z) (dd : list (string * pyval)) (l : list pyval) :
  init_client E cfg = inr c ->
  date_sub_days (today E) (DAYS_TO_EXPORT cfg) = Ret d ->
  let script := export_script (UNCATGEGORIZED_CATEGORY_UUID cfg) d in
  let w1 := snd (osascript E script w) in
  fst (export_verdict E (fst (osascript E script w))) = Some (PDict dd) ->
  dd <> [] ->
  transactions_of dd = PList l ->
  forallb record_ok l = true ->
  (forall items w',
     input_json_list (filter booked l) = Ret items ->
     completes E
       (update_scripts (stage2_mapping E cfg c (filter booked l) items w1)) w') ->
  exists items reported w2,
    input_json_list (filter booked l) = Ret items /\
    json_dumps items = Ret items /\
    List.length reported = List.length l /\
    Forall is_report_line reported /\
    let m := stage2_mapping E cfg c (filter booked l) items w1 in
    main E cfg w =
    (Finished,
     mkState E (snd (replies E (update_scripts m) w2))
       (Popen script :: stage2_events cfg c (filter booked l) items ++
        map Run (update_scripts m))
       ([Step1 (UNCATGEGORIZED_CATEGORY_UUID cfg) (DAYS_TO_EXPORT cfg);
         ExportOk; ReportHead (len l)] ++ reported ++ [ReportRule] ++
        stage2_lines E cfg c (filter booked l) items w1 ++
        Step3 (len m) ::
        match m with
        | [] => [NothingToUpdate]
        | _ :: _ => failures m (fst (replies E (update_scripts m) w2)) ++ [AllUpdated]
        end ++ summary (len l) (len m))).
Proof.
  intros Hc Hd script w1 Hv Hdd Ht Hl Hcompl.
  destruct (records_eq E cfg c l
              (mkState E w1 [Popen script]
                 [Step1 (UNCATGEGORIZED_CATEGORY_UUID cfg) (DAYS_TO_EXPORT cfg);
                  ExportOk; ReportHead (len l)])
              (len l) Hl Hcompl)
    as (items & reported & w2 & Hi & Hj & Hlen & Hall & Heq).
  exists items, reported, w2. repeat (split; [assumption|]).
  intros m. unfold main. rewrite Hc. unfold pipeline. unfold bind at 1.
  rewrite (export_run E cfg _ (start E w) d Hd). cbv zeta.
  cbn [start st_world st_trace st_log app]. fold script. rewrite Hv.
  rewrite (verdict_ok E _ _ Hv).
  assert (Htr : truthy (PDict dd) = true) by (destruct dd; [congruence|reflexivity]).
  rewrite Htr.
  unfold bind at 1. unfold lift at 1. unfold py_get.
  fold (transactions_of dd). rewrite Ht.
  unfold bind at 1. unfold lift at 1. unfold py_len. fold (len l).
  unfold bind at 1. unfold print at 1. cbn [st_world st_trace st_log app].
  unfold bind at 1. unfold lift at 1. unfold py_iter.
  fold w1. cbv zeta in Heq. cbn [st_world st_trace st_log] in Heq.
  rewrite Heq. reflexivity.
Qed.

Lemma accepted_provider_calls (E : Env) (cfg : config) (c : client)
  (items : list (pyval * fstring)) :
  init_client E cfg = inr c ->
  exists a rq,
    backend_call cfg (AI_PROVIDER cfg) items = Some (a, rq) /\
    rq_items rq = items.
Proof.
  unfold init_client, backend_call.
  destruct (String.eqb (AI_PROVIDER cfg) "openai"); simpl; [eauto|].
  destruct (String.eqb (AI_PROVIDER cfg) "deepseek"); simpl; [eauto|].
  destruct (String.eqb (AI_PROVIDER cfg) "anthropic"); simpl; [eauto|].
  discriminate.
Qed.



(** X7: when no exported record is booked the run makes the export call
    and no other: no request to the backend and no update; it prints the
    report of the records, says that nothing is booked and nothing is to
    update, and closes with the summary of the number of records and of 0
    updates. *)
Theorem nothing_booked_nothing_sent (E : Env) (cfg : config) (w : world E)
  (c : client) (d : Z) (dd : list (string * pyval)) (l : list pyval) :
  init_client E cfg = inr c ->
  date_sub_days (today E) (DAYS_TO_EXPORT cfg) = Ret d ->
  let script := export_script (UNCATGEGORIZED_CATEGORY_UUID cfg) d in
  fst (export_verdict E (fst (osascript E script w))) = Some (PDict dd) ->
  dd <> [] ->
  transactions_of dd = PList l ->
  forallb record_ok l = true ->
  filter booked l = [] ->
  exists reported,
    List.length reported = List.length l /\
    Forall is_report_line reported /\
    main E cfg w =
    (Finished,
     mkState E (snd (osascript E script w)) [Popen script]
       ([Step1 (UNCATGEGORIZED_CATEGORY_UUID cfg) (DAYS_TO_EXPORT cfg);
         ExportOk; ReportHead (len l)] ++ reported ++
        [ReportRule; Step2; NoBooked; Step3 0; NothingToUpdate] ++
        summary (len l) 0)).
Proof.
  intros Hc Hd script Hv Hdd Ht Hl Hnone.
  destruct (payload_ok l Hl) as (items0 & Hi0 & _).
  destruct (report_lines E l
              (mkState E (snd (osascript E script w)) [Popen script]
                 [Step1 (UNCATGEGORIZED_CATEGORY_UUID cfg) (DAYS_TO_EXPORT cfg);
                  ExportOk; ReportHead (len l)]) Hl)
    as (reported & Hrep & Hlen & Hall).
  exists reported. split; [exact Hlen|]. split; [exact Hall|].
  unfold main. rewrite Hc. unfold pipeline. unfold bind at 1.
  rewrite (export_run E cfg _ (start E w) d Hd). cbv zeta.
  cbn [start st_world st_trace st_log app]. fold script. rewrite Hv.
  rewrite (verdict_ok E _ _ Hv).
  assert (Htr : truthy (PDict dd) = true) by (destruct dd; [congruence|reflexivity]).
  rewrite Htr.
  unfold bind at 1. unfold lift at 1. unfold py_get.
  fold (transactions_of dd). rewrite Ht.
  unfold bind at 1. unfold lift at 1. unfold py_len. fold (len l).
  unfold bind at 1. unfold print at 1. cbn [st_world st_trace st_log app].
  unfold bind at 1. unfold lift at 1. unfold py_iter.
  unfold bind at 1. rewrite Hrep.
  unfold stage2, stage3. run.
  rewrite (booked_only_ok l Hl), Hnone. simpl.
  unfold summary. repeat (rewrite <- app_assoc; simpl). reflexivity.
Qed.

Lemma nothing_booked_nothing_sent_witness :
  st_trace (snd (main pending_env source_config 0%nat)) =
  [Popen (export_script "a2fea395-d50a-41f9-913a-4a73dec89e72" 739904)].
Proof.
  destruct (nothing_booked_nothing_sent pending_env source_config 0%nat
              (OpenAI (Some "sk-test") (Some "https://api.deepseek.com/v1"))
              739904
              [("transactions",
                PList [transaction 1 "Grocery Store" "weekly shop" false;
                       transaction 2 "Landlord" "rent" false])]
              [transaction 1 "Grocery Store" "weekly shop" false;
               transaction 2 "Landlord" "rent" false]
              eq_refl eq_refl eq_refl)
    as (reported & _ & _ & Hmain);
    [discriminate | reflexivity | reflexivity | reflexivity |].
  rewrite Hmain. reflexivity.
Defined.

(** X8: when some record is booked and the backend's answer is malformed,
    the run goes on to the end: after the export and the one request no
    update call is made, the script says that nothing is to update, and the
    summary counts 0 updates. *)
Theorem failed_classification_updates_nothing (E : Env) (cfg : config)
  (w : world E) (c : client) (d : Z) (dd : list (string * pyval))
  (l : list pyval) (items : list (pyval * fstring)) :
  init_client E cfg = inr c ->
  date_sub_days (today E) (DAYS_TO_EXPORT cfg) = Ret d ->
  let script := export_script (UNCATGEGORIZED_CATEGORY_UUID cfg) d in
  let w1 := snd (osascript E script w) in
  fst (export_verdict E (fst (osascript E script w))) = Some (PDict dd) ->
  dd <> [] ->
  transactions_of dd = PList l ->
  forallb record_ok l = true ->
  filter booked l <> [] ->
  input_json_list (filter booked l) = Ret items ->
  malformed (fst (backend_answer E cfg c (AI_PROVIDER cfg) items w1)) ->
  exists a rq lg,
    fst (main E cfg w) = Finished /\
    st_trace (snd (main E cfg w)) = [Popen script; AICall c a rq] /\
    rq_items rq = items /\
    st_log (snd (main E cfg w)) =
      lg ++ [Step3 0; NothingToUpdate] ++ summary (len l) 0.
Proof.
  intros Hc Hd script w1 Hv Hdd Ht Hl Hb Hi Hmal.
  assert (Hm : stage2_mapping E cfg c (filter booked l) items w1 = []).
  { unfold stage2_mapping. destruct (filter booked l); [congruence|].
    apply malformed_empty, Hmal. }
  destruct (well_formed_run E cfg w c d dd l Hc Hd Hv Hdd Ht Hl)
    as (items' & reported & w2 & Hi' & Hj & Hlen & Hall & Heq).
  { intros items0 w' Hi0. assert (items0 = items) by congruence. subst items0.
    fold script w1. rewrite Hm. exact I. }
  assert (items' = items) by congruence. subst items'.
  cbv zeta in Heq. fold script w1 in Heq.
  rewrite Hm in Heq. rewrite Heq. cbn [fst snd st_trace st_log].
  destruct (accepted_provider_calls E cfg c items Hc) as (a & rq & Hcall & Hrq).
  exists a, rq.
  exists ([Step1 (UNCATGEGORIZED_CATEGORY_UUID cfg) (DAYS_TO_EXPORT cfg);
           ExportOk; ReportHead (len l)] ++ reported ++ [ReportRule] ++
          stage2_lines E cfg c (filter booked l) items w1).
  split; [reflexivity|]. split.
  - unfold stage2_events. destruct (filter booked l); [congruence|].
    rewrite Hcall. reflexivity.
  - split; [exact Hrq|]. rewrite <- !app_assoc. reflexivity.
Qed.

Lemma failed_classification_updates_nothing_witness :
  exists a rq,
    st_trace (snd (main babbling_env source_config 0%nat)) =
    [Popen (export_script "a2fea395-d50a-41f9-913a-4a73dec89e72" 739904);
     AICall (OpenAI (Some "sk-test") (Some "https://api.deepseek.com/v1")) a rq].
Proof.
  destruct (failed_classification_updates_nothing babbling_env source_config
              0%nat
              (OpenAI (Some "sk-test") (Some "https://api.deepseek.com/v1"))
              739904
              [("transactions", PList [transaction 1 "Vet Clinic" "checkup" true])]
              [transaction 1 "Vet Clinic" "checkup" true]
              [(PInt 1, [Str (PStr "Vet Clinic"); Lit " - "; Str (PStr "checkup")])]
              eq_refl eq_refl eq_refl)
    as (a & rq & lg & _ & Ht & _ & _);
    [discriminate | reflexivity | reflexivity | discriminate | reflexivity
    | apply backend_raised |].
  exists a, rq. exact Ht.
Defined.

(** ** Payloads and records the script does not expect *)

Lemma main_after_export (E : Env) (cfg : config) (w : world E) (c : client)
  (d : Z) (data : pyval) :
  init_client E cfg = inr c ->
  date_sub_days (today E) (DAYS_TO_EXPORT cfg) = Ret d ->
  let script := export_script (UNCATGEGORIZED_CATEGORY_UUID cfg) d in
  fst (export_verdict E (fst (osascript E script w))) = Some data ->
  export_transactions_from_moneymoney E cfg
    (UNCATGEGORIZED_CATEGORY_UUID cfg) (start E w) =
  (Ret (Some data),
   mkState E (snd (osascript E script w)) [Popen script]
     [Step1 (UNCATGEGORIZED_CATEGORY_UUID cfg) (DAYS_TO_EXPORT cfg); ExportOk]).
Proof.
  intros Hc Hd script Hv.
  rewrite (export_run E cfg _ (start E w) d Hd). cbv zeta.
  cbn [start st_world st_trace st_log app]. fold script.
  rewrite Hv, (verdict_ok E _ _ Hv). reflexivity.
Qed.

(** X9: an export that succeeds with a payload that counts as false, an
    empty dictionary for one, ends the run at once and in silence: the
    script prints the success of the export and nothing after it, no report,
    no error and no summary, and makes no further call. *)
Theorem empty_payload_ends_in_silence (E : Env) (cfg : config) (w : world E)
  (c : client) (d : Z) (data : pyval) :
  init_client E cfg = inr c ->
  date_sub_days (today E) (DAYS_TO_EXPORT cfg) = Ret d ->
  let script := export_script (UNCATGEGORIZED_CATEGORY_UUID cfg) d in
  fst (export_verdict E (fst (osascript E script w))) = Some data ->
  truthy data = false ->
  main E cfg w =
  (Finished,
   mkState E (snd (osascript E script w)) [Popen script]
     [Step1 (UNCATGEGORIZED_CATEGORY_UUID cfg) (DAYS_TO_EXPORT cfg); ExportOk]).
Proof.
  intros Hc Hd script Hv Hf. unfold main. rewrite Hc.
  unfold pipeline. unfold bind at 1.
  rewrite (main_after_export E cfg w c d data Hc Hd Hv). fold script.
  rewrite Hf. reflexivity.
Qed.

Lemma empty_payload_ends_in_silence_witness :
  main hollow_env source_config 0%nat =
  (Finished,
   mkState hollow_env 1%nat
     [Popen (export_script "a2fea395-d50a-41f9-913a-4a73dec89e72" 739904)]
     [Step1 "a2fea395-d50a-41f9-913a-4a73dec89e72" 20; ExportOk]).
Proof.
  exact (empty_payload_ends_in_silence hollow_env source_config 0%nat
           (OpenAI (Some "sk-test") (Some "https://api.deepseek.com/v1"))
           739904 (PDict []) eq_refl eq_refl eq_refl eq_refl).
Defined.

(** X10: an export that succeeds with a payload that counts as true and is
    not a dictionary ends the run by [AttributeError], raised by
    [exported_data.get] outside every [try], right after the export: nothing
    is printed after the success of the export and no further call is
    made. *)
Theorem payload_that_is_no_dictionary_crashes (E : Env) (cfg : config)
  (w : world E) (c : client) (d : Z) (data : pyval) :
  init_client E cfg = inr c ->
  date_sub_days (today E) (DAYS_TO_EXPORT cfg) = Ret d ->
  let script := export_script (UNCATGEGORIZED_CATEGORY_UUID cfg) d in
  fst (export_verdict E (fst (osascript E script w))) = Some data ->
  truthy data = true ->
  (forall dd, data <> PDict dd) ->
  main E cfg w =
  (Crashed AttributeError,
   mkState E (snd (osascript E script w)) [Popen script]
     [Step1 (UNCATGEGORIZED_CATEGORY_UUID cfg) (DAYS_TO_EXPORT cfg); ExportOk]).
Proof.
  intros Hc Hd script Hv Ht Hnd. unfold main. rewrite Hc.
  unfold pipeline. unfold bind at 1.
  rewrite (main_after_export E cfg w c d data Hc Hd Hv). fold script.
  rewrite Ht. destruct data; try reflexivity. now destruct (Hnd d0).
Qed.

Lemma payload_that_is_no_dictionary_crashes_witness :
  fst (main listed_env source_config 0%nat) = Crashed AttributeError.
Proof.
  rewrite (payload_that_is_no_dictionary_crashes listed_env source_config
             0%nat
             (OpenAI (Some "sk-test") (Some "https://api.deepseek.com/v1"))
             739904 (PList [transaction 1 "Vet Clinic" "checkup" true])
             eq_refl eq_refl eq_refl eq_refl);
    [reflexivity | discriminate].
Defined.

Lemma date_sub_days_out_of_range (d n : Z) :
  ~ (0 < d - n <= _MAXORDINAL) -> date_sub_days d n = Raise OverflowError.
Proof.
  unfold date_sub_days. intros H.
  destruct (999999999 <? Z.abs n); [reflexivity|].
  destruct (0 <? d - n) eqn:H1; [|reflexivity].
  destruct (d - n <=? _MAXORDINAL) eqn:H2; [|reflexivity].
  apply Z.ltb_lt in H1. apply Z.leb_le in H2. lia.
Qed.

(** X11: with an accepted configuration and a window that puts the start
    date outside the calendar, before its first or after its last day, the
    run ends by [OverflowError] after the first line of the exporter, with
    no call made: the date is computed before the [try] of the exporter. *)
Theorem window_outside_the_calendar_crashes (E : Env) (cfg : config)
  (w : world E) (c : client) :
  init_client E cfg = inr c ->
  ~ (0 < today E - DAYS_TO_EXPORT cfg <= _MAXORDINAL) ->
  main E cfg w =
  (Crashed OverflowError,
   mkState E w []
     [Step1 (UNCATGEGORIZED_CATEGORY_UUID cfg) (DAYS_TO_EXPORT cfg)]).
Proof.
  intros Hc Hout. unfold main. rewrite Hc. unfold pipeline. unfold bind at 1.
  unfold export_transactions_from_moneymoney. run.
  rewrite (date_sub_days_out_of_range _ _ Hout). reflexivity.
Qed.

Lemma window_outside_the_calendar_crashes_witness :
  main three_env long_window 0%nat =
  (Crashed OverflowError,
   mkState three_env 0%nat []
     [Step1 "a2fea395-d50a-41f9-913a-4a73dec89e72" 1000000]).
Proof.
  apply (window_outside_the_calendar_crashes three_env long_window 0%nat
           (OpenAI (Some "sk-test") (Some "https://api.deepseek.com/v1"))
           eq_refl).
  unfold _MAXORDINAL. simpl. unfold a_day. lia.
Defined.

Lemma report_stops (E : Env) (good rest : list pyval) (bad : pyval)
  (s : state E) :
  forallb record_ok good = true ->
  (forall d, bad <> PDict d) ->
  exists lg,
    for_each E (good ++ bad :: rest) (report_line E) s =
    (Raise AttributeError,
     mkState E (st_world s) (st_trace s) (st_log s ++ lg)) /\
    List.length lg = List.length good.
Proof.
  revert s; induction good as [|trx good IH]; intros s Hg Hbad.
  - exists []. rewrite app_nil_r. simpl. unfold bind at 1.
    unfold report_line. run.
    destruct bad; destruct s; try (split; reflexivity). now destruct (Hbad d).
  - simpl in Hg. rewrite andb_true_iff in Hg. destruct Hg as [Hr Hg].
    destruct (report_lines E [trx] s) as (lg1 & H1 & Hl1 & _);
      [simpl; now rewrite Hr|].
    simpl in H1. unfold bind at 1 in H1.
    destruct (report_line E trx s) as [[[]|e] s1] eqn:Hs1;
      [|unfold ret in H1; discriminate].
    unfold ret in H1. injection H1 as ->.
    destruct (IH (mkState E (st_world s) (st_trace s) (st_log s ++ lg1))
                Hg Hbad) as (lg & Hlg & Hlen).
    exists (lg1 ++ lg). simpl. unfold bind at 1. rewrite Hs1, Hlg.
    cbn [st_world st_trace st_log]. rewrite <- app_assoc.
    split; [reflexivity|]. rewrite length_app, Hl1, Hlen. reflexivity.
Qed.

(** X12: a record of the exported list that is not a dictionary ends the
    run by [AttributeError] in the export report, after the lines of the
    records before it and before stage 2: no request is made and nothing is
    updated, also for the well-formed records of the same export. *)
Theorem record_that_is_no_dictionary_crashes (E : Env) (cfg : config)
  (w : world E) (c : client) (d : Z) (dd : list (string * pyval))
  (good rest : list pyval) (bad : pyval) :
  init_client E cfg = inr c ->
  date_sub_days (today E) (DAYS_TO_EXPORT cfg) = Ret d ->
  let script := export_script (UNCATGEGORIZED_CATEGORY_UUID cfg) d in
  fst (export_verdict E (fst (osascript E script w))) = Some (PDict dd) ->
  transactions_of dd = PList (good ++ bad :: rest) ->
  forallb record_ok good = true ->
  (forall d', bad <> PDict d') ->
  exists reported,
    List.length reported = List.length good /\
    main E cfg w =
    (Crashed AttributeError,
     mkState E (snd (osascript E script w)) [Popen script]
       ([Step1 (UNCATGEGORIZED_CATEGORY_UUID cfg) (DAYS_TO_EXPORT cfg);
         ExportOk; ReportHead (len (good ++ bad :: rest))] ++ reported)).
Proof.
  intros Hc Hd script Hv Ht Hg Hbad.
  destruct (report_stops E good rest bad
              (mkState E (snd (osascript E script w)) [Popen script]
                 [Step1 (UNCATGEGORIZED_CATEGORY_UUID cfg) (DAYS_TO_EXPORT cfg);
                  ExportOk; ReportHead (len (good ++ bad :: rest))]) Hg Hbad)
    as (reported & Hrep & Hlen).
  exists reported. split; [exact Hlen|].
  unfold main. rewrite Hc. unfold pipeline. unfold bind at 1.
  rewrite (main_after_export E cfg w c d (PDict dd) Hc Hd Hv). fold script.
  assert (Htr : truthy (PDict dd) = true).
  { destruct dd; [|reflexivity]. unfold transactions_of in Ht. simpl in Ht.
    injection Ht as Ht. destruct good; discriminate. }
  rewrite Htr.
  unfold bind at 1. unfold lift at 1. unfold py_get.
  fold (transactions_of dd). rewrite Ht.
  unfold bind at 1. unfold lift at 1. unfold py_len.
  fold (len (good ++ bad :: rest)).
  unfold bind at 1. unfold print at 1. cbn [st_world st_trace st_log app].
  unfold bind at 1. unfold lift at 1. unfold py_iter.
  unfold bind at 1. rewrite Hrep. reflexivity.
Qed.

Lemma record_that_is_no_dictionary_crashes_witness :
  fst (main garbled_env source_config 0%nat) = Crashed AttributeError /\
  st_trace (snd (main garbled_env source_config 0%nat)) =
  [Popen (export_script "a2fea395-d50a-41f9-913a-4a73dec89e72" 739904)].
Proof.
  destruct (record_that_is_no_dictionary_crashes garbled_env source_config
              0%nat
              (OpenAI (Some "sk-test") (Some "https://api.deepseek.com/v1"))
              739904
              [("transactions",
                PList [transaction 1 "Vet Clinic" "checkup" true; PStr "???"])]
              [transaction 1 "Vet Clinic" "checkup" true] [] (PStr "???")
              eq_refl eq_refl eq_refl eq_refl eq_refl)
    as (reported & _ & Hmain); [discriminate|].
  rewrite Hmain. split; reflexivity.
Defined.

(** ** The order of the calls, in every run *)

Lemma report_any (E : Env) (l : list pyval) (s : state E) :
  st_trace (snd (for_each E l (report_line E) s)) = st_trace s.
Proof.
  revert s; induction l as [|trx l IH]; intros s; simpl; [reflexivity|].
  unfold bind at 1. unfold report_line at 1. run.
  destruct (py_get trx "bookingDate" _) as [b|e]; simpl; [|reflexivity].
  destruct (py_strftime b) as [t|e]; simpl; [|reflexivity].
  destruct (py_get trx "name" _) as [n|e]; simpl; [|reflexivity].
  destruct (py_get trx "amount" _) as [a|e]; simpl; [|reflexivity].
  destruct (py_get trx "currency" _) as [cu|e]; simpl; [|reflexivity].
  destruct (format_2f a) as [u|e]; simpl; [|reflexivity].
  rewrite IH. reflexivity.
Qed.

Lemma json_dumps_same (items x : list (pyval * fstring)) :
  json_dumps items = Ret x -> x = items.
Proof.
  unfold json_dumps. destruct (forallb _ items); congruence.
Qed.

Lemma stage2_any (E : Env) (cfg : config) (c : client) (all : list pyval)
  (s : state E) :
  init_client E cfg = inr c ->
  exists ai,
    st_trace (snd (stage2 E cfg c all s)) = st_trace s ++ ai /\
    (ai = [] \/ exists a rq, ai = [AICall c a rq]) /\
    (forall m, fst (stage2 E cfg c all s) = Ret m -> m <> [] -> ai <> []).
Proof.
  intros Hc. destruct (booked_only all) as [ts|e] eqn:Hb.
  - destruct (input_json_list ts) as [items|e] eqn:Hi.
    + destruct (json_dumps items) as [x|e] eqn:Hd.
      * pose proof (json_dumps_same _ _ Hd); subst x.
        destruct (stage2_eq E cfg c all ts items s Hb Hi Hd) as (w' & ->).
        cbn [fst snd st_trace]. exists (stage2_events cfg c ts items).
        split; [reflexivity|]. unfold stage2_events, stage2_mapping.
        destruct ts as [|t ts]; [split; [auto|intros m [= <-]; congruence]|].
        destruct (accepted_provider_calls E cfg c items Hc) as (a & rq & -> & _).
        split; [eauto|]. discriminate.
      * exists []. unfold stage2, bind, lift, print. rewrite Hb.
        destruct ts as [|t ts]; [simpl in Hi; injection Hi as <-; discriminate|].
        cbv beta match. unfold get_ai_categories_batch, bind, lift, print.
        rewrite Hi. cbv beta match. rewrite Hd. cbn [fst snd st_trace].
        rewrite app_nil_r. split; [reflexivity|]. split; [auto|discriminate].
    + exists []. unfold stage2, bind, lift, print. rewrite Hb.
      destruct ts as [|t ts]; [discriminate|].
      cbv beta match. unfold get_ai_categories_batch, bind, lift, print.
      rewrite Hi. cbn [fst snd st_trace].
      rewrite app_nil_r. split; [reflexivity|]. split; [auto|discriminate].
  - exists []. unfold stage2, bind, lift, print. rewrite Hb.
    cbn [fst snd st_trace]. rewrite app_nil_r.
    split; [reflexivity|]. split; [auto|discriminate].
Qed.

Lemma export_any (E : Env) (cfg : config) (uuid : string) (s : state E) :
  let r := export_transactions_from_moneymoney E cfg uuid s in
  exists pre,
    st_trace (snd r) = st_trace s ++ pre /\
    (pre = [] \/ exists script, pre = [Popen script]) /\
    (forall o, fst r = Ret o -> pre <> []).
Proof.
  cbv zeta. destruct (date_sub_days (today E) (DAYS_TO_EXPORT cfg)) as [d|e] eqn:Hd.
  - rewrite (export_run E cfg uuid s d Hd). cbn [fst snd st_trace].
    eexists. split; [reflexivity|]. split; [eauto | discriminate].
  - exists []. unfold export_transactions_from_moneymoney. run. rewrite Hd.
    simpl. rewrite app_nil_r. split; [reflexivity|]. split; [auto|discriminate].
Qed.

Lemma tail_any (E : Env) (cfg : config) (c : client) (l : list pyval)
  (s : state E) (found : Z) :
  init_client E cfg = inr c ->
  exists ai runs,
    st_trace (snd
      (bind E (for_each E l (report_line E))
         (fun _ => bind E (print E ReportRule)
            (fun _ => bind E (stage2 E cfg c l)
               (fun m => bind E (stage3 E m)
                  (fun _ => bind E (print E SummaryHead)
                     (fun _ => bind E (print E (SummaryExported found))
                        (fun _ => bind E (print E (SummaryUpdated (len m)))
                           (fun _ => bind E (print E SummaryRule)
                              (fun _ => print E AllDone)))))))) s)) =
    st_trace s ++ ai ++ map Run runs /\
    (ai = [] \/ exists a rq, ai = [AICall c a rq]) /\
    (runs <> [] -> ai <> []).
Proof.
  intros Hc. unfold bind at 1.
  pose proof (report_any E l s) as Hrep.
  destruct (for_each E l (report_line E) s) as [[[]|e] s1]; simpl in Hrep.
  - unfold bind at 1. unfold print at 1. unfold bind at 1.
    match goal with
    | |- context [stage2 E cfg c l ?s'] =>
        destruct (stage2_any E cfg c l s' Hc) as (ai & Ht & Hai & Hm);
        destruct (stage2 E cfg c l s') as [[m|e] s2]
    end; cbn [fst snd st_trace] in Ht, Hm.
    + destruct (stage3_prefix E m s2) as (n & _ & _ & H3t).
      exists ai, (firstn n (update_scripts m)). unfold bind at 1.
      destruct (stage3 E m s2) as [[u|e] s3]; cbn [fst snd st_trace] in H3t;
        run; rewrite H3t, Ht, Hrep, <- app_assoc;
        (split; [reflexivity|]); (split; [exact Hai|]);
        intros Hr; apply (Hm m eq_refl); intros ->; apply Hr;
        now destruct n.
    + exists ai, []. cbn [fst snd st_trace map]. rewrite Ht, Hrep, app_nil_r.
      split; [reflexivity|]. split; [exact Hai|congruence].
  - exists [], []. cbn [fst snd st_trace map app]. rewrite Hrep, app_nil_r.
    split; [reflexivity|]. split; [auto|congruence].
Qed.

(** X13: in every run, however it ends and whatever the outside answers,
    the calls come in one order: at most one export call, then at most one
    request to the backend, then the update calls; there is no request
    without an export before it and no update without a request before
    it. *)
Theorem calls_come_in_order (E : Env) (cfg : config) (w : world E) :
  in_order (st_trace (snd (main E cfg w))).
Proof.
  unfold in_order, main. destruct (init_client E cfg) as [fatal|c] eqn:Hc.
  - exists [], [], []. simpl. split; [reflexivity|]. tauto.
  - assert (H : exists pre ai runs,
               st_trace (snd (pipeline E cfg c (start E w))) =
                 pre ++ ai ++ map Run runs /\
               (pre = [] \/ exists script, pre = [Popen script]) /\
               (ai = [] \/ exists c a rq, ai = [AICall c a rq]) /\
               (ai <> [] -> pre <> []) /\ (runs <> [] -> ai <> [])).
    { unfold pipeline. unfold bind at 1.
      destruct (export_any E cfg (UNCATGEGORIZED_CATEGORY_UUID cfg) (start E w))
        as (pre & Ht & Hpre & Hret).
      destruct (export_transactions_from_moneymoney E cfg _ (start E w))
        as [[o|e] s1]; cbn [fst snd st_trace start app] in Ht, Hret.
      - specialize (Hret o eq_refl).
        assert (Hstop : forall (x : outcome unit),
                  exists pre0 ai runs,
                    st_trace (snd (x, s1)) = pre0 ++ ai ++ map Run runs /\
                    (pre0 = [] \/ exists script, pre0 = [Popen script]) /\
                    (ai = [] \/ exists c a rq, ai = [AICall c a rq]) /\
                    (ai <> [] -> pre0 <> []) /\ (runs <> [] -> ai <> [])).
        { intros x. exists pre, [], []. cbn [snd map app].
          rewrite app_nil_r. split; [exact Ht|]. tauto. }
        destruct o as [data|]; [|apply Hstop].
        destruct (truthy data); [|apply Hstop].
        unfold bind at 1. unfold lift at 1.
        destruct (py_get data "transactions" (PList [])) as [tr|e]; [|apply Hstop].
        unfold bind at 1. unfold lift at 1.
        destruct (py_len tr) as [found|e]; [|apply Hstop].
        unfold bind at 1. unfold print at 1. unfold bind at 1. unfold lift at 1.
        destruct (py_iter tr) as [l|e];
          [|exists pre, [], []; cbn [snd st_trace map app];
            rewrite app_nil_r; split; [exact Ht|]; tauto].
        match goal with
        | |- context [bind E (for_each E l (report_line E)) ?k ?s'] =>
            destruct (tail_any E cfg c l s' found Hc) as (ai & runs & Htl & Hai & Hr)
        end.
        exists pre, ai, runs. rewrite Htl. cbn [st_trace]. rewrite Ht.
        split; [reflexivity|]. split; [exact Hpre|]. split.
        + destruct Hai as [->|(a & rq & ->)]; eauto.
        + split; [intros _; exact Hret | exact Hr].
      - exists pre, [], []. cbn [snd map app]. rewrite app_nil_r.
        split; [exact Ht|]. tauto. }
    destruct (pipeline E cfg c (start E w)) as [[u|e] s']; exact H.
Qed.

(** ** What the request shows of a record *)

(** X14: the payload of the request is made of the identifier, the name
    and the purpose of the records and of nothing else: two batches whose
    records agree on these three fields give the same payload, or fail
    alike, whatever their amounts, dates, currencies and other fields. *)
Theorem payload_shows_id_name_purpose_only (ts ts' : list pyval) :
  Forall2 same_id_name_purpose ts ts' ->
  input_json_list ts = input_json_list ts'.
Proof.
  induction 1 as [|trx trx' ts ts' Hsame _ IH]; simpl; [reflexivity|].
  assert (Hitem : request_item trx = request_item trx').
  { destruct trx; try (now destruct Hsame).
    destruct trx'; try (now destruct Hsame).
    destruct Hsame as (Hi & Hn & Hp).
    unfold request_item, py_get, py_item. now rewrite Hi, Hn, Hp. }
  now rewrite Hitem, IH.
Qed.

Lemma payload_shows_id_name_purpose_only_witness :
  input_json_list [transaction 1 "Vet Clinic" "checkup" true] =
  input_json_list
    [PDict [("id", PInt 1); ("name", PStr "Vet Clinic");
            ("purpose", PStr "checkup"); ("amount", PInt 9000);
            ("accountNumber", PStr "DE02120300000000202051")]].
Proof.
  apply payload_shows_id_name_purpose_only.
  constructor; [|constructor]. simpl. auto.
Defined.

(** ** The configuration, accepted or not *)

(** X15: the start of the script accepts the configuration exactly when
    there is no configuration error: the provider is one of the three and
    the variable of its key, and of no other provider, is set and not
    empty. *)
Theorem accepted_unless_configuration_error (E : Env) (cfg : config) :
  (exists c, init_client E cfg = inr c) <-> ~ configuration_error E cfg.
Proof.
  unfold configuration_error, key_variable, init_client, no_key.
  destruct (String.eqb (AI_PROVIDER cfg) "openai");
    [|destruct (String.eqb (AI_PROVIDER cfg) "anthropic");
      [|destruct (String.eqb (AI_PROVIDER cfg) "deepseek")]];
    try (match goal with
         | |- context [getenv E ?v] =>
             destruct (getenv E v) as [[|ch k]|]; simpl
         end);
    split;
    try (intros [c H]; discriminate);
    try (intros H; exfalso; apply H; auto; fail);
    try (intros _ [H|H]; discriminate);
    try (intros _; eexists; reflexivity);
    try (intros [c H] _; discriminate).
Qed.

Lemma accepted_unless_configuration_error_witness :
  exists c, init_client three_env source_config = inr c.
Proof.
  apply (proj2 (accepted_unless_configuration_error three_env source_config)).
  unfold configuration_error. simpl. intros [H|H]; discriminate.
Defined.

(** ** A provider the classifier does not know *)

(** X16: called with a provider that is none of the three, the classifier
    calls no backend and parses the empty text instead; when the parser
    refuses it, the classifier returns the empty mapping and prints the line
    of success of the AI call, though no call was made, and after it the
    error line. *)
Theorem unknown_provider_calls_nothing (E : Env) (cfg : config) (c : client)
  (provider : string) (ts : list pyval) (items : list (pyval * fstring))
  (s : state E) (e : exn) :
  known_provider provider = false ->
  input_json_list ts = Ret items ->
  json_dumps items = Ret items ->
  json_loads E EmptyString = Raise e ->
  get_ai_categories_batch E cfg c provider ts s =
  (Ret [],
   mkState E (st_world s) (st_trace s)
     (st_log s ++
      [Formatting provider; SystemPrompt (system_prompt cfg); Sending provider;
       AICallOk; AIError e])).
Proof.
  intros Hk Hi Hd He.
  rewrite (classifier_eq E cfg c provider ts items s Hi Hd).
  unfold backend_answer, backend_reply, backend_call, known_provider in *.
  destruct (String.eqb provider "openai"); [discriminate|].
  destruct (String.eqb provider "anthropic"); [discriminate|].
  destruct (String.eqb provider "deepseek"); [discriminate|].
  simpl. rewrite He. simpl. rewrite app_nil_r. reflexivity.
Qed.

Lemma unknown_provider_calls_nothing_witness :
  fst (get_ai_categories_batch babbling_env source_config (OpenAI None None)
         "mistral" [transaction 1 "Vet Clinic" "checkup" true]
         (mkState babbling_env 1%nat [] [])) = Ret [].
Proof.
  rewrite (unknown_provider_calls_nothing babbling_env source_config
             (OpenAI None None) "mistral"
             [transaction 1 "Vet Clinic" "checkup" true]
             [(PInt 1, [Str (PStr "Vet Clinic"); Lit " - "; Str (PStr "checkup")])]
             (mkState babbling_env 1%nat [] []) ValueError
             eq_refl eq_refl eq_refl eq_refl).
  reflexivity.
Defined.

(** ** A window that looks ahead *)

(** X17: a negative window is not refused: when the start date it gives
    stays within the calendar, the exporter asks for the transactions from a
    day after today. *)
Theorem negative_window_looks_ahead (E : Env) (cfg : config) (uuid : string)
  (s : state E) :
  DAYS_TO_EXPORT cfg < 0 ->
  0 < today E ->
  today E - DAYS_TO_EXPORT cfg <= _MAXORDINAL ->
  let from_date := today E - DAYS_TO_EXPORT cfg in
  today E < from_date /\
  st_trace (snd (export_transactions_from_moneymoney E cfg uuid s)) =
    st_trace s ++ [Popen (export_script uuid from_date)].
Proof.
  intros Hneg Hpos Hmax from_date. split; [unfold from_date; lia|].
  assert (Hd : date_sub_days (today E) (DAYS_TO_EXPORT cfg) = Ret from_date).
  { unfold date_sub_days, _MAXORDINAL in *.
    replace (999999999 <? Z.abs (DAYS_TO_EXPORT cfg)) with false
      by (symmetry; apply Z.ltb_ge; lia).
    replace (0 <? today E - DAYS_TO_EXPORT cfg) with true
      by (symmetry; apply Z.ltb_lt; lia).
    replace (today E - DAYS_TO_EXPORT cfg <=? 3652059) with true
      by (symmetry; apply Z.leb_le; lia).
    reflexivity. }
  rewrite (export_run E cfg uuid s from_date Hd). reflexivity.
Qed.

Lemma negative_window_looks_ahead_witness :
  st_trace (snd (export_transactions_from_moneymoney three_env backward_window
                   "a2fea395-d50a-41f9-913a-4a73dec89e72"
                   (start three_env 0%nat))) =
  [Popen (export_script "a2fea395-d50a-41f9-913a-4a73dec89e72" 739929)].
Proof.
  assert (H1 : DAYS_TO_EXPORT backward_window < 0) by (simpl; lia).
  assert (H2 : 0 < today three_env) by (simpl; unfold a_day; lia).
  assert (H3 : today three_env - DAYS_TO_EXPORT backward_window <= _MAXORDINAL)
    by (unfold _MAXORDINAL; simpl; unfold a_day; lia).
  exact (proj2 (negative_window_looks_ahead three_env backward_window
                  "a2fea395-d50a-41f9-913a-4a73dec89e72"
                  (start three_env 0%nat) H1 H2 H3)).
Defined.

(** ** Failures of the outside *)




